(** * Order page of the bakery pre-order site: cart, pickup rules, submission

    A shallow embedding of [src/pages/Order.tsx].  The React component keeps
    its state in hooks ([cart], [isSubmitting], the react-hook-form values);
    here every handler is a function from the state it closes over to the
    state it sets, together with the notices it raises and the calls it makes
    to the outside (EmailJS, the order context).

    Conventions of the embedding
    - a JS array is a [list], searched with [find] and rebuilt with
      [map]/[filter] exactly where the source does so;
    - text the code only stores or compares with [===] (ids, names, pickup
      times) is a [string], compared with [String.eqb]; the three typed form
      fields, whose length and characters the code inspects, are
      [JsString]s, sequences of UTF-16 code units;
    - quantities and stock are integers ([Z]); prices are JS numbers, which
      may be missing: they are [JsNumber]s over IEEE-754 binary64 values
      ([PrimFloat]), with [NaN], the infinities and rounding at every [*]
      and [+];
    - a [Date] is a count of local-time milliseconds; a civil day has
      86 400 000 of them (daylight-saving shifts are not modelled). *)

From Stdlib Require Import List ZArith QArith String Ascii Bool Lia Floats.
From Stdlib Require Import DecimalString.
Import ListNotations.

Local Open Scope Z_scope.

(* ================================================================== *)
(** ** Data model *)
(* ================================================================== *)

(** A JS value of static type [number] as it can reach the page: a double
    ([NaN] and the infinities among them), or nothing at all ([undefined]). *)
Inductive JsNumber : Type :=
| Num (f : float)
| Undefined.

(** A UTF-16 code unit, and a JS string as the sequence of its code units:
    [s.length] is the length of the list. *)
Definition CodeUnit : Type := Z.
Definition JsString : Type := list CodeUnit.

(** The code units of a text written in ASCII. *)
Definition jsString (s : string) : JsString :=
  map (fun c => Z.of_N (N_of_ascii c)) (list_ascii_of_string s).

(** [MenuItem] from [@/types/menu], restricted to the fields the page reads
    in its cart and submission logic. *)
Record MenuItem : Type := {
  mi_id : string;
  mi_name : string;
  mi_price : JsNumber;
  madeToOrder : bool;
  stock : Z
}.

(** [interface CartItem]. *)
Record CartItem : Type := {
  ci_id : string;
  ci_name : string;
  ci_price : JsNumber;
  quantity : Z
}.

Definition Cart : Type := list CartItem.

(** Local wall-clock time in milliseconds. *)
Definition Date : Type := Z.

(** [OrderFormValues]: the react-hook-form values.  A field the form has not
    set yet is [undefined] ([None]). *)
Record OrderFormValues : Type := {
  name : JsString;
  email : JsString;
  phone : JsString;
  inStockPickupDate : option Date;
  inStockPickupTime : option string;
  madeToOrderPickupDate : option Date;
  madeToOrderPickupTime : option string;
  specialInstructions : option string
}.

(** [defaultValues]. *)
Definition defaultValues : OrderFormValues := {|
  name := [];
  email := [];
  phone := [];
  inStockPickupDate := None;
  inStockPickupTime := None;
  madeToOrderPickupDate := None;
  madeToOrderPickupTime := None;
  specialInstructions := Some EmptyString
|}.

(** The notices the page raises through [toast]. *)
Inductive Toast : Type :=
| OutOfStock (item : string)
| StockLimitReached (available : Z) (item : string)
| ItemAdded (item : string)
| OrderReceived
| SubmitError.

(** How a handler ends: it returns, or a [TypeError] escapes it (reading a
    property of [undefined]); in the second case no state setter has run. *)
Inductive Outcome (A : Type) : Type :=
| Returned (a : A)
| TypeError.
Arguments Returned {A} a.
Arguments TypeError {A}.

(* ================================================================== *)
(** ** Helper functions of the module *)
(* ================================================================== *)

(** [menuItems.find(mi => mi.id === id)]. *)
Definition findMenuItem (menuItems : list MenuItem) (i : string) : option MenuItem :=
  find (fun mi => String.eqb (mi_id mi) i) menuItems.

(** [cart.find(cartItem => cartItem.id === id)]. *)
Definition findCartItem (cart : Cart) (i : string) : option CartItem :=
  find (fun cartItem => String.eqb (ci_id cartItem) i) cart.

(** JS truthiness of a number: [NaN], [0] and [-0] are falsy. *)
Definition truthyNumber (f : float) : bool :=
  negb (PrimFloat.is_nan f || PrimFloat.eqb f 0%float).

(** [Number(price || 0)]: [undefined], [NaN], [0] and [-0] are falsy and give
    [0]; any other number, the infinities included, is kept. *)
Definition priceOrZero (p : JsNumber) : float :=
  match p with
  | Num f => if truthyNumber f then f else 0%float
  | Undefined => 0%float
  end.

(** The double an integer quantity is held as: the integer itself up to
    2^53, the nearest double (ties to even) beyond. *)
Definition numberOfZ (z : Z) : float :=
  SF2Prim (binary_normalize prec emax z 0 false).

(** [Number(item.price || 0) * item.quantity], a product of doubles. *)
Definition lineAmount (item : CartItem) : float :=
  (priceOrZero (ci_price item) * numberOfZ (quantity item))%float.

Record OrderDetails : Type := {
  inStockItems : list CartItem;
  madeToOrderItems : list CartItem;
  cartTotal : float
}.

(** [formatOrderDetails]: [menuItem && !menuItem.madeToOrder] and
    [menuItem && menuItem.madeToOrder] are both falsy when [find] returns
    [undefined]. *)
Definition formatOrderDetails (cart : Cart) (menuItems : list MenuItem) : OrderDetails := {|
  inStockItems :=
    filter (fun item =>
              match findMenuItem menuItems (ci_id item) with
              | Some menuItem => negb (madeToOrder menuItem)
              | None => false
              end) cart;
  madeToOrderItems :=
    filter (fun item =>
              match findMenuItem menuItems (ci_id item) with
              | Some menuItem => madeToOrder menuItem
              | None => false
              end) cart;
  cartTotal :=
    fold_left (fun total item => (total + lineAmount item)%float) cart 0%float
|}.

(* ================================================================== *)
(** ** Cart handlers *)
(* ================================================================== *)

(** The line a menu item enters the cart with. *)
Definition newLine (item : MenuItem) : CartItem := {|
  ci_id := mi_id item;
  ci_name := mi_name item;
  ci_price := mi_price item;
  quantity := 1
|}.

Definition setLineQuantity (cartItem : CartItem) (q : Z) : CartItem := {|
  ci_id := ci_id cartItem;
  ci_name := ci_name cartItem;
  ci_price := ci_price cartItem;
  quantity := q
|}.

(** [addToCart]: the cart it sets and the notice it raises. *)
Definition addToCart (cart : Cart) (item : MenuItem) : Cart * list Toast :=
  let existingItem := findCartItem cart (mi_id item) in
  if negb (madeToOrder item) && (stock item <=? 0) then
    (cart, [OutOfStock (mi_name item)])
  else if negb (madeToOrder item)
          && match existingItem with
             | Some e => stock item <=? quantity e
             | None => false
             end then
    (cart, [StockLimitReached (stock item) (mi_name item)])
  else
    (match existingItem with
     | Some _ =>
         map (fun cartItem =>
                if String.eqb (ci_id cartItem) (mi_id item)
                then setLineQuantity cartItem (quantity cartItem + 1)
                else cartItem) cart
     | None => cart ++ [newLine item]
     end,
     [ItemAdded (mi_name item)]).

(** [removeFromCart]. *)
Definition removeFromCart (cart : Cart) (i : string) : Cart :=
  filter (fun item => negb (String.eqb (ci_id item) i)) cart.

(** [updateQuantity].  With no menu item of that id, [!menuItem?.madeToOrder]
    is [true] and [menuItem!.stock] raises. *)
Definition updateQuantity (menuItems : list MenuItem) (cart : Cart)
    (i : string) (q : Z) : Outcome (Cart * list Toast) :=
  if q <? 1 then Returned (removeFromCart cart i, [])
  else
    match findMenuItem menuItems i with
    | None => TypeError
    | Some menuItem =>
        if negb (madeToOrder menuItem) && (stock menuItem <? q) then
          Returned (cart, [StockLimitReached (stock menuItem) (mi_name menuItem)])
        else
          Returned (map (fun item =>
                           if String.eqb (ci_id item) i
                           then setLineQuantity item q
                           else item) cart,
                    [])
    end.

(** The effect that reads [?item=<id>] from the URL.  [if (itemId)] skips
    both a missing parameter and the empty string. *)
Definition urlItemEffect (menuItems : list MenuItem) (itemParam : option string)
    (cart : Cart) : Cart :=
  match itemParam with
  | None => cart
  | Some itemId =>
      if String.eqb itemId EmptyString then cart
      else
        match findMenuItem menuItems itemId with
        | None => cart
        | Some menuItem =>
            if negb (existsb (fun item => String.eqb (ci_id item) itemId) cart)
            then cart ++ [newLine menuItem]
            else cart
        end
  end.

(** Sum of the quantities of the cart lines that reference id [i]. *)
Definition quantityOf (i : string) (cart : Cart) : Z :=
  fold_right (fun item acc => if String.eqb (ci_id item) i then quantity item + acc else acc)
             0 cart.

(** The stock rule of the data model, as a decidable check: every menu item
    that is not made to order has at most [stock] units in the cart. *)
Definition stockRespected (menuItems : list MenuItem) (cart : Cart) : bool :=
  forallb (fun mi => madeToOrder mi || (quantityOf (mi_id mi) cart <=? stock mi)) menuItems.

(** One user action on the cart. *)
Inductive CartAction : Type :=
| Add (item : MenuItem)
| Remove (i : string)
| SetQuantity (i : string) (q : Z).

Definition applyAction (menuItems : list MenuItem) (cart : Cart) (a : CartAction) : Cart :=
  match a with
  | Add item => fst (addToCart cart item)
  | Remove i => removeFromCart cart i
  | SetQuantity i q =>
      match updateQuantity menuItems cart i q with
      | Returned r => fst r
      | TypeError => cart
      end
  end.

(** What the buttons of the page can fire: [Add] is rendered per menu item,
    the quantity and remove buttons per line of the two sub-order lists. *)
Definition actionOffered (menuItems : list MenuItem) (a : CartAction) : Prop :=
  match a with
  | Add item => In item menuItems
  | Remove _ => True
  | SetQuantity _ _ => True
  end.

(* ================================================================== *)
(** ** Pickup dates *)
(* ================================================================== *)

Definition MS_PER_HOUR : Z := 3600000.
Definition MS_PER_DAY : Z := 86400000.

(** Civil day of a date, counted from 1970-01-01. *)
Definition dayNumber (d : Date) : Z := d / MS_PER_DAY.

(** [getDay()]: 0 is Sunday; 1970-01-01 was a Thursday. *)
Definition getDay (d : Date) : Z := (dayNumber d + 4) mod 7.

(** [getHours()]. *)
Definition getHours (d : Date) : Z := (d mod MS_PER_DAY) / MS_PER_HOUR.

(** [new Date(now.getFullYear(), now.getMonth(), now.getDate())]. *)
Definition startOfDay (d : Date) : Date := dayNumber d * MS_PER_DAY.

(** [d.setDate(d.getDate() + n)]. *)
Definition addDays (d : Date) (n : Z) : Date := d + n * MS_PER_DAY.

Definition daysUntilNextSaturday (now : Date) : Z := (6 - getDay now + 7) mod 7.

Definition upcomingSaturday (now : Date) : Date :=
  addDays (startOfDay now) (daysUntilNextSaturday now).

Definition saturdayAfterNext (now : Date) : Date :=
  addDays (upcomingSaturday now) 7.

(** [currentDay > 3 || (currentDay === 3 && currentHour >= 18)]. *)
Definition pastCutoff (now : Date) : bool :=
  (3 <? getDay now) || ((getDay now =? 3) && (18 <=? getHours now)).

(** The component-level [getAvailablePickupDates(date)], with the clock and
    [hasMadeToOrderItems] it closes over made explicit. *)
Definition getAvailablePickupDates (now : Date) (hasMadeToOrderItems : bool)
    (date : Date) : bool :=
  let today := startOfDay now in
  if hasMadeToOrderItems then
    if negb (getDay date =? 6) then false
    else if pastCutoff now then saturdayAfterNext now <=? date
    else upcomingSaturday now <=? date
  else
    let isWeekday := (1 <=? getDay date) && (getDay date <=? 5) in
    let minPickupDate := addDays today 1 in
    isWeekday && (minPickupDate <=? date).

(** Modelled from the spec: the [Calendar] component of
    [@/components/ui/calendar] (a wrapper of react-day-picker) is not part of
    this module.  Section 4.2 speaks of the minimum selectable date and of
    excluded days: a day can be picked when it is not on a civil day before
    [fromDate] and the [disabled] matcher does not hold of it. *)
Definition calendarSelectable (fromDate : Date) (disabled : Date -> bool)
    (date : Date) : bool :=
  negb (dayNumber date <? dayNumber fromDate) && negb (disabled date).

(** The calendar of the [inStockPickupDate] field. *)
Definition inStockCalendar (now : Date) (date : Date) : bool :=
  calendarSelectable (addDays now 1)
                     (fun date => (getDay date =? 0) || (getDay date =? 6))
                     date.

(** The calendar of the [madeToOrderPickupDate] field. *)
Definition madeToOrderCalendar (now : Date) (date : Date) : bool :=
  calendarSelectable (upcomingSaturday now)
                     (fun date => negb (getDay date =? 6))
                     date.

(** The earliest Saturday of the weekly cutoff rule. *)
Definition earliestSaturday (now : Date) : Date :=
  if pastCutoff now then saturdayAfterNext now else upcomingSaturday now.

(* ================================================================== *)
(** ** Pickup times *)
(* ================================================================== *)

(** [PICKUP_TIMES]. *)
Definition PICKUP_TIMES : list string := [
  "9:00 AM"; "9:30 AM"; "10:00 AM"; "10:30 AM";
  "11:00 AM"; "11:30 AM"; "12:00 PM"; "12:30 PM";
  "1:00 PM"; "1:30 PM"; "2:00 PM"; "2:30 PM";
  "3:00 PM"; "3:30 PM"; "4:00 PM"; "4:30 PM";
  "5:00 PM"
]%string.

(** [getAvailablePickupTimes]; no part of the page calls it. *)
Definition getAvailablePickupTimes (hasMadeToOrderItems : bool) : list string :=
  if hasMadeToOrderItems then [
    "9:00 AM"; "9:30 AM"; "10:00 AM"; "10:30 AM";
    "11:00 AM"; "11:30 AM"; "12:00 PM"; "12:30 PM";
    "1:00 PM"; "1:30 PM"; "2:00 PM"; "2:30 PM";
    "3:00 PM"; "3:30 PM"; "4:00 PM"; "4:30 PM";
    "5:00 PM"; "5:30 PM"; "6:00 PM"
  ]%string
  else [
    "12:00 PM"; "12:30 PM"; "1:00 PM"; "1:30 PM";
    "2:00 PM"; "2:30 PM"; "3:00 PM"; "3:30 PM";
    "4:00 PM"; "4:30 PM"; "5:00 PM"; "5:30 PM";
    "6:00 PM"
  ]%string.

(** The [SelectItem] values rendered under the [inStockPickupTime] field:
    [PICKUP_TIMES.map(time => <SelectItem value={time}>)]. *)
Definition inStockPickupTimeOptions : list string := map (fun time => time) PICKUP_TIMES.

(** The [SelectItem] values rendered under the [madeToOrderPickupTime]
    field, from the same constant. *)
Definition madeToOrderPickupTimeOptions : list string := map (fun time => time) PICKUP_TIMES.

(** A time of day, in minutes after midnight, on a 12-hour clock. *)
Definition natToString (n : nat) : string := NilZero.string_of_uint (Nat.to_uint n).

Definition twoDigits (n : nat) : string :=
  if (n <? 10)%nat then ("0" ++ natToString n)%string else natToString n.

Definition clockLabel (minutes : nat) : string :=
  let h := (minutes / 60)%nat in
  let m := (minutes mod 60)%nat in
  let h12 := if (h mod 12 =? 0)%nat then 12%nat else (h mod 12)%nat in
  (natToString h12 ++ ":" ++ twoDigits m ++ (if (h <? 12)%nat then " AM" else " PM"))%string.

Fixpoint gridFrom (start : nat) (slots : nat) : list string :=
  match slots with
  | O => []
  | S k => clockLabel start :: gridFrom (start + 30) k
  end.

(** The half-hour grid from [first] to [last] o'clock, both included. *)
Definition halfHourGrid (first last : nat) : list string :=
  gridFrom (first * 60) ((last - first) * 2 + 1).

(* ================================================================== *)
(** ** Form validation *)
(* ================================================================== *)

(** The code units removed by [String.prototype.trim]: the WhiteSpace and
    LineTerminator productions of ECMAScript, that is TAB, LF, VT, FF, CR,
    SPACE, U+00A0, U+1680, U+2000 to U+200A, U+2028, U+2029, U+202F, U+205F,
    U+3000 and U+FEFF. *)
Definition isWhiteSpace (c : CodeUnit) : bool :=
  ((9 <=? c) && (c <=? 13))
  || (c =? 32) || (c =? 160) || (c =? 5760)
  || ((8192 <=? c) && (c <=? 8202))
  || (c =? 8232) || (c =? 8233) || (c =? 8239) || (c =? 8287)
  || (c =? 12288) || (c =? 65279).

Fixpoint trimStart (s : JsString) : JsString :=
  match s with
  | [] => []
  | c :: rest => if isWhiteSpace c then trimStart rest else s
  end.

(** [val.trim()]. *)
Definition trim (s : JsString) : JsString :=
  rev (trimStart (rev (trimStart s))).

(** The character class [\d]: the code units of [0] to [9]. *)
Definition isDigit (c : CodeUnit) : bool :=
  (48 <=? c) && (c <=? 57).

(** The code unit of [-]. *)
Definition DASH : CodeUnit := 45.

Definition isDash (c : CodeUnit) : bool := c =? DASH.

(** [/^\d{3}-\d{3}-\d{4}$/.test(val)]. *)
Definition phonePattern (val : JsString) : bool :=
  match val with
  | [a1; a2; a3; d1; b1; b2; b3; d2; c1; c2; c3; c4] =>
      isDigit a1 && isDigit a2 && isDigit a3 && isDash d1
      && isDigit b1 && isDigit b2 && isDigit b3 && isDash d2
      && isDigit c1 && isDigit c2 && isDigit c3 && isDigit c4
  | _ => false
  end.

Definition isSome {A : Type} (o : option A) : bool :=
  match o with Some _ => true | None => false end.

(** JS truthiness of an optional string: [undefined] and the empty string
    are falsy. *)
Definition truthyString (o : option string) : bool :=
  match o with
  | Some s => negb (String.eqb s EmptyString)
  | None => false
  end.

(** [orderFormSchema].  [isEmail] stands for the syntax check of zod's
    [z.string().email()], which is not part of this module.  All four pickup
    fields are required by the object schema. *)
Definition orderFormSchema (isEmail : JsString -> bool) (data : OrderFormValues) : bool :=
  ((2 <=? List.length (name data))%nat
   && (0 <? List.length (trim (name data)))%nat)
  && (isEmail (email data)
      && (0 <? List.length (trim (email data)))%nat)
  && ((12 <=? List.length (phone data))%nat
      && (List.length (phone data) <=? 12)%nat
      && (0 <? List.length (trim (phone data)))%nat
      && phonePattern (phone data))
  && isSome (inStockPickupDate data)
  && isSome (inStockPickupTime data)
  && isSome (madeToOrderPickupDate data)
  && isSome (madeToOrderPickupTime data).

(** The predicate [createValidationSchema] passes to [refine]. *)
Definition pickupDetailsRefinement (cart : Cart) (menuItems : list MenuItem)
    (data : OrderFormValues) : bool :=
  let details := formatOrderDetails cart menuItems in
  if (List.length cart =? 0)%nat then false
  else if (0 <? List.length (inStockItems details))%nat
          && (negb (isSome (inStockPickupDate data))
              || negb (truthyString (inStockPickupTime data))) then false
  else if (0 <? List.length (madeToOrderItems details))%nat
          && (negb (isSome (madeToOrderPickupDate data))
              || negb (truthyString (madeToOrderPickupTime data))) then false
  else true.

(** [createValidationSchema()]: whether the resolver accepts the values. *)
Definition createValidationSchema (isEmail : JsString -> bool) (cart : Cart)
    (menuItems : list MenuItem) (data : OrderFormValues) : bool :=
  orderFormSchema isEmail data && pickupDetailsRefinement cart menuItems data.

(** The validation rules as section 4.3 of the specification lists them. *)
Definition validationRules (isEmail : JsString -> bool) (cart : Cart)
    (menuItems : list MenuItem) (data : OrderFormValues) : bool :=
  let details := formatOrderDetails cart menuItems in
  (2 <=? List.length (trim (name data)))%nat
  && isEmail (email data)
  && phonePattern (phone data)
  && negb (List.length cart =? 0)%nat
  && ((List.length (inStockItems details) =? 0)%nat
      || (isSome (inStockPickupDate data) && truthyString (inStockPickupTime data)))
  && ((List.length (madeToOrderItems details) =? 0)%nat
      || (isSome (madeToOrderPickupDate data) && truthyString (madeToOrderPickupTime data))).

(* ================================================================== *)
(** ** Submission *)
(* ================================================================== *)

Definition BAKERY_EMAIL : JsString := jsString "myjilicioustreats@gmail.com".

(** [x || 'Not applicable'] and [x || 'None']: a falsy string is dropped. *)
Definition orFallback (o : option string) : option string :=
  if truthyString o then o else None.

(** [templateParams], with the itemised lines and the total kept as data
    (their rendering with [toFixed(2)] and [join] is left out). *)
Record TemplateParams : Type := {
  to_email : JsString;
  customer_name : JsString;
  customer_email : JsString;
  customer_phone : JsString;
  in_stock_pickup_date : option Date;
  in_stock_pickup_time : option string;
  made_to_order_pickup_date : option Date;
  made_to_order_pickup_time : option string;
  special_instructions : option string;
  in_stock_items : list CartItem;
  made_to_order_items : list CartItem;
  total_amount : float
}.

(** [{ ...templateParams, to_email: recipient }]. *)
Definition withRecipient (p : TemplateParams) (recipient : JsString) : TemplateParams := {|
  to_email := recipient;
  customer_name := customer_name p;
  customer_email := customer_email p;
  customer_phone := customer_phone p;
  in_stock_pickup_date := in_stock_pickup_date p;
  in_stock_pickup_time := in_stock_pickup_time p;
  made_to_order_pickup_date := made_to_order_pickup_date p;
  made_to_order_pickup_time := made_to_order_pickup_time p;
  special_instructions := special_instructions p;
  in_stock_items := in_stock_items p;
  made_to_order_items := made_to_order_items p;
  total_amount := total_amount p
|}.

(** The argument of [addOrder]. *)
Record Order : Type := {
  customerName : JsString;
  customerEmail : JsString;
  customerPhone : JsString;
  orderInStockItems : list CartItem;
  orderMadeToOrderItems : list CartItem;
  orderInStockPickupDate : option Date;
  orderInStockPickupTime : option string;
  orderMadeToOrderPickupDate : option Date;
  orderMadeToOrderPickupTime : option string;
  total : float;
  orderSpecialInstructions : option string;
  paymentMethod : string;
  orderType : string;
  estimatedCompletionTime : option Date
}.

(** A call the page makes to a collaborator. *)
Inductive Call : Type :=
| EmailSend (params : TemplateParams)
| AddOrder (order : Order).

(** How the collaborators answer during one submission: whether each
    [emailjs.send] promise and the [addOrder] promise fulfil. *)
Record Collaborators : Type := {
  customerSendOk : bool;
  bakerySendOk : bool;
  addOrderOk : bool
}.

(** The state around a submission: the hooks of the page and the list kept
    by the order context, which grows by the order handed to a fulfilled
    [addOrder]. *)
Record PageState : Type := {
  cart : Cart;
  formValues : OrderFormValues;
  isSubmitting : bool;
  orders : list Order
}.

Definition setIsSubmitting (st : PageState) (b : bool) : PageState := {|
  cart := cart st;
  formValues := formValues st;
  isSubmitting := b;
  orders := orders st
|}.

(** Modelled from the spec: the order context of [@/contexts/OrderContext]
    is not part of this module.  By section 6 its [record(orderSnapshot)]
    succeeds or fails; the snapshot joins the recorded orders when it
    succeeds. *)
Definition recordOrder (st : PageState) (o : Order) : PageState := {|
  cart := cart st;
  formValues := formValues st;
  isSubmitting := isSubmitting st;
  orders := orders st ++ [o]
|}.

(** [form.reset(defaultValues); setCart([])]. *)
Definition resetFormAndCart (st : PageState) : PageState := {|
  cart := [];
  formValues := defaultValues;
  isSubmitting := isSubmitting st;
  orders := orders st
|}.

Record Submission : Type := {
  after : PageState;
  calls : list Call;
  toasts : list Toast
}.

Definition buildTemplateParams (details : OrderDetails) (data : OrderFormValues)
  : TemplateParams := {|
  to_email := email data;
  customer_name := name data;
  customer_email := email data;
  customer_phone := phone data;
  in_stock_pickup_date := inStockPickupDate data;
  in_stock_pickup_time := orFallback (inStockPickupTime data);
  made_to_order_pickup_date := madeToOrderPickupDate data;
  made_to_order_pickup_time := orFallback (madeToOrderPickupTime data);
  special_instructions := orFallback (specialInstructions data);
  in_stock_items := inStockItems details;
  made_to_order_items := madeToOrderItems details;
  total_amount := cartTotal details
|}.

Definition buildOrder (details : OrderDetails) (data : OrderFormValues) : Order := {|
  customerName := name data;
  customerEmail := email data;
  customerPhone := phone data;
  orderInStockItems := inStockItems details;
  orderMadeToOrderItems := madeToOrderItems details;
  orderInStockPickupDate := inStockPickupDate data;
  orderInStockPickupTime := inStockPickupTime data;
  orderMadeToOrderPickupDate := madeToOrderPickupDate data;
  orderMadeToOrderPickupTime := madeToOrderPickupTime data;
  total := cartTotal details;
  orderSpecialInstructions := specialInstructions data;
  paymentMethod := "zelle";
  orderType := "pickup";
  estimatedCompletionTime := inStockPickupDate data
|}.

(** [onSubmit].  Both sends are started before [Promise.all] awaits them;
    [addOrder] is called only once both have fulfilled; the [catch] block
    raises the failure notice; the [finally] block clears [isSubmitting]. *)
Definition onSubmit (env : Collaborators) (menuItems : list MenuItem)
    (st : PageState) (data : OrderFormValues) : Submission :=
  if isSubmitting st || (List.length (cart st) =? 0)%nat then
    {| after := st; calls := []; toasts := [] |}
  else
    let st1 := setIsSubmitting st true in
    let details := formatOrderDetails (cart st1) menuItems in
    let templateParams := buildTemplateParams details data in
    let emailPromises :=
      [EmailSend templateParams;
       EmailSend (withRecipient templateParams BAKERY_EMAIL)] in
    let order := buildOrder details data in
    let attempt : PageState * list Call * list Toast :=
      if customerSendOk env && bakerySendOk env then
        if addOrderOk env then
          (resetFormAndCart (recordOrder st1 order),
           emailPromises ++ [AddOrder order],
           [OrderReceived])
        else (st1, emailPromises ++ [AddOrder order], [SubmitError])
      else (st1, emailPromises, [SubmitError]) in
    {| after := setIsSubmitting (fst (fst attempt)) false;
       calls := snd (fst attempt);
       toasts := snd attempt |}.

(** The [onSubmit] attribute of the [<form>]: it reads the current values
    with [form.getValues()] and hands them to [onSubmit]. *)
Definition formSubmitHandler (env : Collaborators) (menuItems : list MenuItem)
    (st : PageState) : Submission :=
  onSubmit env menuItems st (formValues st).

Definition isEmailSend (c : Call) : bool :=
  match c with EmailSend _ => true | AddOrder _ => false end.

Definition isAddOrder (c : Call) : bool :=
  match c with AddOrder _ => true | EmailSend _ => false end.

(* ================================================================== *)
(** ** Properties stated about the cart *)
(* ================================================================== *)

(** A well-formed cart: one line per id, every quantity at least 1, and the
    stock rule. *)
Definition cartInvariant (menuItems : list MenuItem) (cart : Cart) : Prop :=
  NoDup (map ci_id cart)
  /\ Forall (fun line => 1 <= quantity line) cart
  /\ stockRespected menuItems cart = true.

(** The line-by-line rewrite done by [cart.map] in [addToCart] and
    [updateQuantity]: lines of id [i] get quantity [f line]. *)
Definition rewriteLines (i : string) (f : CartItem -> Z) (cart : Cart) : Cart :=
  map (fun item => if String.eqb (ci_id item) i then setLineQuantity item (f item) else item) cart.

(** The rational a double stands for; [NaN] and the infinities stand for
    none. *)
Definition exactValue (f : float) : option Q :=
  match Prim2SF f with
  | S754_zero _ => Some 0%Q
  | S754_finite s m e =>
      let mantissa := if s then Zneg m else Zpos m in
      Some (if 0 <=? e then inject_Z (mantissa * 2 ^ e)
            else Qmake mantissa (Pos.pow 2 (Z.to_pos (- e))))
  | S754_infinity _ => None
  | S754_nan => None
  end.

(** The price as section 4.1 of the specification words it: the number the
    price stands for, a missing or invalid one counting as 0. *)
Definition priceOrMissing (p : JsNumber) : Q :=
  match p with
  | Num f => match exactValue f with Some q => q | None => 0%Q end
  | Undefined => 0%Q
  end.

(** The sum of [price * quantity] over the lines, as a number. *)
Fixpoint sumOfLines (lines : list CartItem) : Q :=
  match lines with
  | [] => 0%Q
  | line :: rest => (priceOrMissing (ci_price line) * inject_Z (quantity line) + sumOfLines rest)%Q
  end.

(** The total as the specification states it: the number the computed total
    stands for is the sum over the lines. *)
Definition totalAsStated (cart : Cart) (menuItems : list MenuItem) : Prop :=
  exists t,
    exactValue (cartTotal (formatOrderDetails cart menuItems)) = Some t
    /\ (t == sumOfLines cart)%Q.

(** The step of [cart.reduce]. *)
Definition addLine (total : float) (item : CartItem) : float :=
  (total + lineAmount item)%float.

(** The lines of the cart that match no menu item. *)
Definition unmatchedItems (cart : Cart) (menuItems : list MenuItem) : list CartItem :=
  filter (fun item => negb (isSome (findMenuItem menuItems (ci_id item)))) cart.

(** A weekday, Monday to Friday. *)
Definition isWeekday (date : Date) : Prop := 1 <= getDay date <= 5.

(** The in-stock rule as the specification states it: a weekday strictly
    after tomorrow. *)
Definition inStockRuleAsStated (now date : Date) : Prop :=
  getAvailablePickupDates now false date = true
  <-> (isWeekday date /\ dayNumber now + 1 < dayNumber date).

(** The pickup-time grids as the specification states them. *)
Definition pickupTimesAsStated : Prop :=
  inStockPickupTimeOptions = halfHourGrid 12 18
  /\ madeToOrderPickupTimeOptions = halfHourGrid 9 18.

(** Sample data used in the examples below. *)
Definition cookie : MenuItem := {|
  mi_id := "cookie"; mi_name := "Cookie"; mi_price := Num 2.5%float;
  madeToOrder := false; stock := 3
|}.

Definition soldOutBrownie : MenuItem := {|
  mi_id := "brownie"; mi_name := "Brownie"; mi_price := Num 4%float;
  madeToOrder := false; stock := 0
|}.

Definition customCake : MenuItem := {|
  mi_id := "cake"; mi_name := "Custom cake"; mi_price := Num 45%float;
  madeToOrder := true; stock := 0
|}.

Definition sampleMenu : list MenuItem := [cookie; soldOutBrownie; customCake].

Definition sampleCart : Cart := [setLineQuantity (newLine cookie) 2; newLine customCake].

(** A line left over from an item that is no longer on the menu. *)
Definition strayLine : CartItem := {|
  ci_id := "scone"; ci_name := "Scone"; ci_price := Num 3%float; quantity := 2
|}.

(** Three items at the double nearest to 0.1 each. *)
Definition dimeLine : CartItem := {|
  ci_id := "mint"; ci_name := "Mint"; ci_price := Num (1 / 10)%float; quantity := 3
|}.

(** 1970-01-05 was a Monday, 1970-01-07 a Wednesday, 1970-01-08 a Thursday. *)
Definition mondayNoon : Date := 4 * MS_PER_DAY + 12 * MS_PER_HOUR.
Definition tuesdayMidnight : Date := 5 * MS_PER_DAY.
Definition wednesday1759 : Date := 6 * MS_PER_DAY + 17 * MS_PER_HOUR + 59 * 60000.
Definition wednesday1801 : Date := 6 * MS_PER_DAY + 18 * MS_PER_HOUR + 60000.
Definition thursdayMorning : Date := 7 * MS_PER_DAY + 10 * MS_PER_HOUR.
Definition saturdayThisWeek : Date := 9 * MS_PER_DAY.
Definition saturdayNextWeek : Date := 16 * MS_PER_DAY.

Definition allFulfil : Collaborators :=
  {| customerSendOk := true; bakerySendOk := true; addOrderOk := true |}.

(** A page with one cookie in the cart and a form nobody has filled in. *)
Definition untouchedFormState : PageState := {|
  cart := [newLine cookie];
  formValues := defaultValues;
  isSubmitting := false;
  orders := []
|}.

Definition emptyCartState : PageState := {|
  cart := [];
  formValues := defaultValues;
  isSubmitting := false;
  orders := []
|}.

(* ================================================================== *)
(** ** The phone field *)
(* ================================================================== *)

(** [s.slice(a, b)] for [a <= b]: the characters from position [a] up to,
    not including, position [b], as far as the string goes. *)
Definition slice (s : JsString) (a b : nat) : JsString :=
  firstn (b - a) (skipn a s).

(** [formatPhoneNumber]: [value.replace(/\D/g, '')] keeps the digits; they are
    then grouped as 3, 3 and 4 with dashes in between. *)
Definition formatPhoneNumber (value : JsString) : JsString :=
  let digits := filter isDigit value in
  if (0 <? List.length digits)%nat then
    slice digits 0 3
    ++ (if (3 <? List.length digits)%nat then DASH :: slice digits 3 6 else [])
    ++ (if (6 <? List.length digits)%nat then DASH :: slice digits 6 10 else [])
  else [].

(** The two refinements and the length bound that [orderFormSchema] puts on
    the name field. *)
Definition nameRule (n : JsString) : bool :=
  (2 <=? List.length n)%nat && (0 <? List.length (trim n))%nat.

(* ================================================================== *)
(** ** The module-level date helper *)
(* ================================================================== *)

Module ModuleLevel.

(** The module-level [getAvailablePickupDates(hasMadeToOrderItems)], which
    returns the first day on offer; the clock it reads is made explicit. *)
Definition getAvailablePickupDates (now : Date) (hasMadeToOrderItems : bool) : Date :=
  let today := startOfDay now in
  if hasMadeToOrderItems then
    if pastCutoff now then saturdayAfterNext now else upcomingSaturday now
  else
    addDays today 1.

End ModuleLevel.

(* ================================================================== *)
(** ** The menu column *)
(* ================================================================== *)

(** A [MenuItem] with the two fields the menu column filters on.
    [dietaryInfo] answers whether [item.dietaryInfo[key]] is truthy. *)
Record CatalogItem : Type := {
  menuItem : MenuItem;
  category : string;
  dietaryInfo : string -> bool
}.

(** [filteredMenuItems], for the current [selectedCategory] and
    [selectedDietary]. *)
Definition filteredMenuItems (menuItems : list CatalogItem)
    (selectedCategory : string) (selectedDietary : list string) : list CatalogItem :=
  filter (fun item =>
            let matchesCategory :=
              String.eqb selectedCategory "all" || String.eqb (category item) selectedCategory in
            let matchesDietary :=
              (List.length selectedDietary =? 0)%nat
              || forallb (fun restriction => dietaryInfo item restriction) selectedDietary in
            matchesCategory && matchesDietary)
         menuItems.

(** The sections drawn in the menu column: one per category of [categories]
    that passes the category filter and has items left; a category without
    items renders [null]. *)
Definition categorySections (categories : list string) (menuItems : list CatalogItem)
    (selectedCategory : string) (selectedDietary : list string)
  : list (string * list CatalogItem) :=
  flat_map
    (fun c =>
       let categoryItems :=
         filter (fun item => String.eqb (category item) c)
                (filteredMenuItems menuItems selectedCategory selectedDietary) in
       if (List.length categoryItems =? 0)%nat then [] else [(c, categoryItems)])
    (filter (fun c => String.eqb selectedCategory "all" || String.eqb c selectedCategory)
            categories).

(* ================================================================== *)
(** ** Buttons and events of the page *)
(* ================================================================== *)

(** The plus button of a cart line: [updateQuantity(item.id, item.quantity + 1)]. *)
Definition plusButton (menuItems : list MenuItem) (cart : Cart) (line : CartItem)
  : Outcome (Cart * list Toast) :=
  updateQuantity menuItems cart (ci_id line) (quantity line + 1).

(** The minus button of a cart line: [updateQuantity(item.id, item.quantity - 1)]. *)
Definition minusButton (menuItems : list MenuItem) (cart : Cart) (line : CartItem)
  : Outcome (Cart * list Toast) :=
  updateQuantity menuItems cart (ci_id line) (quantity line - 1).

(** What can change the cart: a button, or the effect that reads the URL. *)
Inductive PageEvent : Type :=
| Click (a : CartAction)
| UrlItem (itemParam : option string).

Definition applyEvent (menuItems : list MenuItem) (cart : Cart) (e : PageEvent) : Cart :=
  match e with
  | Click a => applyAction menuItems cart a
  | UrlItem itemParam => urlItemEffect menuItems itemParam cart
  end.

Definition eventOffered (menuItems : list MenuItem) (e : PageEvent) : Prop :=
  match e with
  | Click a => actionOffered menuItems a
  | UrlItem _ => True
  end.

(** The [disabled] attribute of the Add button of a menu item. *)
Definition addButtonDisabled (item : MenuItem) : bool :=
  negb (madeToOrder item) && (stock item =? 0).

(** The [disabled] attribute of the submit button. *)
Definition submitButtonDisabled (st : PageState) : bool :=
  (List.length (cart st) =? 0)%nat || isSubmitting st.

(** Whether [addToCart] goes through for [item], in terms of what the cart
    holds of it. *)
Definition addAccepted (cart : Cart) (item : MenuItem) : bool :=
  madeToOrder item || (quantityOf (mi_id item) cart <? stock item).

(** The shape of a cart the page can build: one line per id, quantities of
    at least 1, and every line on the menu. *)
Definition wellShaped (menuItems : list MenuItem) (cart : Cart) : Prop :=
  NoDup (map ci_id cart)
  /\ Forall (fun line => 1 <= quantity line) cart
  /\ Forall (fun i => findMenuItem menuItems i <> None) (map ci_id cart).

(** A line that carries the name and the price of the menu item of its id. *)
Definition snapshotOfMenu (menuItems : list MenuItem) (line : CartItem) : Prop :=
  exists menuItem,
    findMenuItem menuItems (ci_id line) = Some menuItem
    /\ ci_name line = mi_name menuItem
    /\ ci_price line = mi_price menuItem.

(** More sample data. *)
Definition filledForm : OrderFormValues := {|
  name := jsString "Al";
  email := jsString "al@example.com";
  phone := jsString "555-123-4567";
  inStockPickupDate := Some tuesdayMidnight;
  inStockPickupTime := Some "12:00 PM"%string;
  madeToOrderPickupDate := Some saturdayThisWeek;
  madeToOrderPickupTime := Some "9:00 AM"%string;
  specialInstructions := None
|}.

Definition veganCookie : CatalogItem := {|
  menuItem := cookie;
  category := "Cookies";
  dietaryInfo := fun key => String.eqb key "vegan"
|}.

Definition seasonalCake : CatalogItem := {|
  menuItem := customCake;
  category := "Seasonal";
  dietaryInfo := fun _ => false
|}.

(* ================================================================== *)
(** * Theorems *)
(* ================================================================== *)

(** ** Lookups *)

Lemma findMenuItem_id menuItems i menuItem :
  findMenuItem menuItems i = Some menuItem ->
  In menuItem menuItems /\ mi_id menuItem = i.
Proof.
  unfold findMenuItem. intros H. apply find_some in H.
  destruct H as [Hin Heq]. apply String.eqb_eq in Heq. auto.
Qed.

Lemma findMenuItem_unique menuItems menuItem :
  NoDup (map mi_id menuItems) ->
  In menuItem menuItems ->
  findMenuItem menuItems (mi_id menuItem) = Some menuItem.
Proof.
  unfold findMenuItem.
  induction menuItems as [|m rest IH]; simpl; intros Hnd Hin; [contradiction|].
  inversion Hnd as [|? ? Hnotin Hnd']; subst.
  destruct Hin as [<-|Hin].
  - now rewrite String.eqb_refl.
  - destruct (String.eqb (mi_id m) (mi_id menuItem)) eqn:E.
    + apply String.eqb_eq in E. exfalso. apply Hnotin. rewrite E.
      now apply in_map.
    + auto.
Qed.

Lemma findCartItem_id cart i line :
  findCartItem cart i = Some line -> In line cart /\ ci_id line = i.
Proof.
  unfold findCartItem. intros H. apply find_some in H.
  destruct H as [Hin Heq]. apply String.eqb_eq in Heq. auto.
Qed.

Lemma findCartItem_none cart i :
  findCartItem cart i = None -> ~ In i (map ci_id cart).
Proof.
  unfold findCartItem. intros H Hin. apply in_map_iff in Hin.
  destruct Hin as [line [Hid Hl]].
  pose proof (find_none _ _ H _ Hl) as Hf. simpl in Hf.
  rewrite Hid, String.eqb_refl in Hf. discriminate.
Qed.

(** ** Quantities per id *)

Lemma quantityOf_absent i cart :
  ~ In i (map ci_id cart) -> quantityOf i cart = 0.
Proof.
  induction cart as [|c rest IH]; simpl; intros Hn; [reflexivity|].
  destruct (String.eqb (ci_id c) i) eqn:E.
  - apply String.eqb_eq in E. exfalso. apply Hn. now left.
  - apply IH. intros Hin. apply Hn. now right.
Qed.

Lemma quantityOf_app i cart line :
  quantityOf i (cart ++ [line]) =
  quantityOf i cart + (if String.eqb (ci_id line) i then quantity line else 0).
Proof.
  induction cart as [|c rest IH]; simpl.
  - destruct (String.eqb (ci_id line) i); lia.
  - rewrite IH. destruct (String.eqb (ci_id c) i); lia.
Qed.

Lemma quantityOf_found i cart :
  NoDup (map ci_id cart) ->
  quantityOf i cart =
  match findCartItem cart i with Some e => quantity e | None => 0 end.
Proof.
  unfold findCartItem.
  induction cart as [|c rest IH]; simpl; intros Hnd; [reflexivity|].
  inversion Hnd as [|? ? Hnotin Hnd']; subst.
  destruct (String.eqb (ci_id c) i) eqn:E.
  - apply String.eqb_eq in E. subst i.
    rewrite (quantityOf_absent _ _ Hnotin). lia.
  - now apply IH.
Qed.

Lemma rewriteLines_ids i f cart :
  map ci_id (rewriteLines i f cart) = map ci_id cart.
Proof.
  unfold rewriteLines. rewrite map_map. apply map_ext.
  intros a. now destruct (String.eqb (ci_id a) i).
Qed.

Lemma rewriteLines_other i j f cart :
  j <> i -> quantityOf j (rewriteLines i f cart) = quantityOf j cart.
Proof.
  intros Hne. unfold rewriteLines.
  induction cart as [|c rest IH]; simpl; [reflexivity|].
  rewrite IH. destruct (String.eqb (ci_id c) i) eqn:E; simpl; [|reflexivity].
  apply String.eqb_eq in E. rewrite E.
  assert (String.eqb i j = false) as -> by (apply String.eqb_neq; congruence).
  reflexivity.
Qed.

Lemma rewriteLines_same i f cart :
  NoDup (map ci_id cart) ->
  quantityOf i (rewriteLines i f cart) =
  match findCartItem cart i with Some e => f e | None => 0 end.
Proof.
  intros Hnd.
  induction cart as [|c rest IH]; [reflexivity|].
  inversion Hnd as [|? ? Hnotin Hnd']; subst.
  unfold findCartItem in *. simpl.
  destruct (String.eqb (ci_id c) i) eqn:E; simpl; rewrite E.
  - apply String.eqb_eq in E. subst i.
    fold (rewriteLines (ci_id c) f rest).
    rewrite quantityOf_absent; [lia|].
    now rewrite rewriteLines_ids.
  - now apply IH.
Qed.

Lemma rewriteLines_nth i f cart n line :
  nth_error cart n = Some line ->
  nth_error (rewriteLines i f cart) n =
  Some (if String.eqb (ci_id line) i then setLineQuantity line (f line) else line).
Proof.
  intros H. unfold rewriteLines.
  now rewrite nth_error_map, H.
Qed.

Lemma removeFromCart_quantityOf i j cart :
  quantityOf j (removeFromCart cart i) =
  if String.eqb i j then 0 else quantityOf j cart.
Proof.
  unfold removeFromCart.
  induction cart as [|c rest IH]; simpl.
  - now destruct (String.eqb i j).
  - destruct (String.eqb (ci_id c) i) eqn:E; simpl.
    + apply String.eqb_eq in E. rewrite IH, E.
      now destruct (String.eqb i j).
    + rewrite IH. destruct (String.eqb i j) eqn:E2; [|reflexivity].
      apply String.eqb_eq in E2. subst j. now rewrite E.
Qed.

Lemma quantityOf_nonneg i cart :
  Forall (fun line => 1 <= quantity line) cart -> 0 <= quantityOf i cart.
Proof.
  induction 1 as [|c rest Hc _ IH]; simpl; [lia|].
  destruct (String.eqb (ci_id c) i); lia.
Qed.

(** ** The cart handlers and the stock rule *)

Lemma stockRespected_iff menuItems cart :
  stockRespected menuItems cart = true <->
  forall mi, In mi menuItems -> madeToOrder mi = false ->
             quantityOf (mi_id mi) cart <= stock mi.
Proof.
  unfold stockRespected. rewrite forallb_forall. split; intros H mi Hin.
  - intros Hm. specialize (H mi Hin). rewrite Hm in H. simpl in H.
    now apply Z.leb_le.
  - destruct (madeToOrder mi) eqn:Hm; [reflexivity|]. simpl.
    apply Z.leb_le. auto.
Qed.

Lemma rewriteLines_quantities i f cart :
  (forall line, In line cart -> 1 <= f line) ->
  Forall (fun line => 1 <= quantity line) cart ->
  Forall (fun line => 1 <= quantity line) (rewriteLines i f cart).
Proof.
  intros Hf Hall. unfold rewriteLines. apply Forall_forall.
  intros x Hx. apply in_map_iff in Hx. destruct Hx as [c [<- Hc]].
  rewrite Forall_forall in Hall.
  destruct (String.eqb (ci_id c) i); simpl; auto.
Qed.

(** [addToCart] keeps a well-formed cart well formed. *)
Lemma addToCart_invariant menuItems cart item :
  NoDup (map mi_id menuItems) ->
  In item menuItems ->
  cartInvariant menuItems cart ->
  cartInvariant menuItems (fst (addToCart cart item)).
Proof.
  intros Hmenu Hin (Hnd & Hq & Hs). unfold addToCart.
  destruct (negb (madeToOrder item) && (stock item <=? 0)) eqn:G1;
    [simpl; repeat split; assumption|].
  destruct (findCartItem cart (mi_id item)) as [e|] eqn:Hfind.
  - destruct (negb (madeToOrder item) && (stock item <=? quantity e)) eqn:G2;
      [simpl; repeat split; assumption|].
    simpl. fold (rewriteLines (mi_id item) (fun c => quantity c + 1) cart).
    repeat split.
    + now rewrite rewriteLines_ids.
    + apply rewriteLines_quantities; [|assumption].
      intros line Hl. rewrite Forall_forall in Hq. specialize (Hq line Hl). lia.
    + apply stockRespected_iff. intros mi Hmi Hm.
      rewrite stockRespected_iff in Hs. specialize (Hs mi Hmi Hm).
      destruct (string_dec (mi_id mi) (mi_id item)) as [Heq|Hne].
      * assert (mi = item) as ->.
        { pose proof (findMenuItem_unique _ _ Hmenu Hmi) as F1.
          pose proof (findMenuItem_unique _ _ Hmenu Hin) as F2.
          rewrite Heq in F1. congruence. }
        rewrite rewriteLines_same, Hfind by assumption.
        rewrite Hm in G2. simpl in G2. apply Z.leb_gt in G2. lia.
      * now rewrite rewriteLines_other.
  - rewrite andb_false_r. simpl.
    pose proof (findCartItem_none _ _ Hfind) as Habs.
    repeat split.
    + rewrite map_app. simpl. apply NoDup_app; [assumption|repeat constructor; simpl; tauto|].
      intros x Hx [<-|[]]. auto.
    + apply Forall_app. split; [assumption|]. repeat constructor. simpl. lia.
    + apply stockRespected_iff. intros mi Hmi Hm.
      rewrite stockRespected_iff in Hs. specialize (Hs mi Hmi Hm).
      rewrite quantityOf_app. simpl.
      destruct (String.eqb (mi_id item) (mi_id mi)) eqn:E; [|lia].
      apply String.eqb_eq in E.
      assert (mi = item) as ->.
      { pose proof (findMenuItem_unique _ _ Hmenu Hmi) as F1.
        pose proof (findMenuItem_unique _ _ Hmenu Hin) as F2.
        rewrite <- E in F1. congruence. }
      rewrite (quantityOf_absent _ _ Habs).
      rewrite Hm in G1. simpl in G1. apply Z.leb_gt in G1. lia.
Qed.

(** [removeFromCart] keeps a well-formed cart well formed. *)
Lemma removeFromCart_invariant menuItems cart i :
  cartInvariant menuItems cart ->
  cartInvariant menuItems (removeFromCart cart i).
Proof.
  intros (Hnd & Hq & Hs). unfold removeFromCart. repeat split.
  - clear Hq Hs. induction cart as [|c rest IH]; simpl; [constructor|].
    inversion Hnd as [|? ? Hnotin Hnd']; subst.
    destruct (negb (String.eqb (ci_id c) i)); simpl; auto.
    constructor; auto. intros Hin. apply Hnotin.
    apply in_map_iff in Hin. destruct Hin as [x [Hx Hf]].
    apply filter_In in Hf. apply in_map_iff. exists x. tauto.
  - apply Forall_forall. intros x Hx. apply filter_In in Hx.
    rewrite Forall_forall in Hq. apply Hq. tauto.
  - apply stockRespected_iff. intros mi Hmi Hm.
    rewrite stockRespected_iff in Hs. specialize (Hs mi Hmi Hm).
    fold (removeFromCart cart i). rewrite removeFromCart_quantityOf.
    destruct (String.eqb i (mi_id mi)); [|assumption].
    pose proof (quantityOf_nonneg (mi_id mi) cart Hq). lia.
Qed.

(** [updateQuantity] keeps a well-formed cart well formed, whether it
    returns or raises. *)
Lemma updateQuantity_invariant menuItems cart i q :
  NoDup (map mi_id menuItems) ->
  cartInvariant menuItems cart ->
  cartInvariant menuItems (applyAction menuItems cart (SetQuantity i q)).
Proof.
  intros Hmenu Hinv. simpl. unfold updateQuantity.
  destruct (q <? 1) eqn:Hq1; [now apply removeFromCart_invariant|].
  apply Z.ltb_ge in Hq1.
  destruct (findMenuItem menuItems i) as [menuItem|] eqn:Hfind; [|assumption].
  destruct (negb (madeToOrder menuItem) && (stock menuItem <? q)) eqn:G;
    [assumption|].
  simpl. fold (rewriteLines i (fun _ => q) cart).
  destruct Hinv as (Hnd & Hq & Hs). repeat split.
  - now rewrite rewriteLines_ids.
  - apply rewriteLines_quantities; auto.
  - apply stockRespected_iff. intros mi Hmi Hm.
    rewrite stockRespected_iff in Hs. specialize (Hs mi Hmi Hm).
    destruct (string_dec (mi_id mi) i) as [Heq|Hne].
    + subst i. rewrite (findMenuItem_unique _ _ Hmenu Hmi) in Hfind.
      injection Hfind as <-.
      rewrite rewriteLines_same by assumption.
      rewrite Hm in G. simpl in G. apply Z.ltb_ge in G.
      destruct (findCartItem cart (mi_id mi)); lia.
    + now rewrite rewriteLines_other.
Qed.

(** Every action the buttons offer keeps a well-formed cart well formed. *)
Lemma applyAction_invariant menuItems cart a :
  NoDup (map mi_id menuItems) ->
  actionOffered menuItems a ->
  cartInvariant menuItems cart ->
  cartInvariant menuItems (applyAction menuItems cart a).
Proof.
  intros Hmenu Hoff Hinv. destruct a as [item|i|i q].
  - now apply addToCart_invariant.
  - now apply removeFromCart_invariant.
  - now apply updateQuantity_invariant.
Qed.

(** Any sequence of button actions keeps a well-formed cart well formed. *)
Lemma buttons_keep_invariant menuItems actions cart :
  NoDup (map mi_id menuItems) ->
  Forall (actionOffered menuItems) actions ->
  cartInvariant menuItems cart ->
  cartInvariant menuItems (fold_left (applyAction menuItems) actions cart).
Proof.
  intros Hmenu Hoff. revert cart.
  induction Hoff as [|a rest Ha _ IH]; simpl; intros cart Hinv; [assumption|].
  apply IH. now apply applyAction_invariant.
Qed.

(** The empty cart is well formed when no stock figure is negative. *)
Lemma empty_cart_invariant menuItems :
  Forall (fun mi => 0 <= stock mi) menuItems ->
  cartInvariant menuItems [].
Proof.
  intros Hst. repeat split; try constructor.
  apply stockRespected_iff. intros mi Hmi _. simpl.
  rewrite Forall_forall in Hst. auto.
Qed.

(** C2 (the code departs from the claim).  The effect that adds the item named
    in the URL checks only that the item is on the menu and not yet in the
    cart: for a sold-out item that is not made to order it puts one unit in
    the cart, and the cart then holds more of the item than its stock. *)
Theorem urlItemEffect_exceeds_stock :
  cartInvariant sampleMenu []
  /\ urlItemEffect sampleMenu (Some "brownie"%string) [] = [newLine soldOutBrownie]
  /\ quantityOf "brownie" (urlItemEffect sampleMenu (Some "brownie"%string) []) = 1
  /\ stock soldOutBrownie = 0
  /\ stockRespected sampleMenu (urlItemEffect sampleMenu (Some "brownie"%string) []) = false
  /\ fst (addToCart [] soldOutBrownie) = [].
Proof.
  split.
  - apply empty_cart_invariant. unfold sampleMenu.
    repeat constructor; simpl; lia.
  - repeat split; reflexivity.
Qed.

(** ** [updateQuantity] *)

Lemma updateQuantity_below_one menuItems cart i q :
  q < 1 ->
  updateQuantity menuItems cart i q = Returned (removeFromCart cart i, []).
Proof.
  intros Hq. unfold updateQuantity.
  apply Z.ltb_lt in Hq. now rewrite Hq.
Qed.

(** C8.  For a line of the cart whose id names menu item [menuItem]:
    with [q < 1], [updateQuantity] sets the cart that [removeFromCart] sets;
    with [q >= 1], an item that is not made to order and has fewer than [q]
    units in stock leaves the cart as it is; in every other case the lines of
    that id get quantity [q] and nothing else (id, name, price, position,
    the other lines) changes. *)
Theorem updateQuantity_spec menuItems cart i q menuItem :
  In i (map ci_id cart) ->
  findMenuItem menuItems i = Some menuItem ->
  (q < 1 ->
     updateQuantity menuItems cart i q = Returned (removeFromCart cart i, []))
  /\ (1 <= q -> madeToOrder menuItem = false -> stock menuItem < q ->
      exists notice, updateQuantity menuItems cart i q = Returned (cart, notice))
  /\ (1 <= q -> (madeToOrder menuItem = true \/ q <= stock menuItem) ->
      exists cart',
        updateQuantity menuItems cart i q = Returned (cart', [])
        /\ List.length cart' = List.length cart
        /\ forall n line, nth_error cart n = Some line ->
             (ci_id line <> i -> nth_error cart' n = Some line)
             /\ (ci_id line = i ->
                 nth_error cart' n =
                 Some {| ci_id := ci_id line; ci_name := ci_name line;
                         ci_price := ci_price line; quantity := q |})).
Proof.
  intros _ Hfind. split; [|split].
  - apply updateQuantity_below_one.
  - intros Hq Hm Hst. unfold updateQuantity.
    apply Z.ltb_ge in Hq. rewrite Hq, Hfind, Hm. simpl.
    apply Z.ltb_lt in Hst. rewrite Hst. eauto.
  - intros Hq Hok. unfold updateQuantity.
    apply Z.ltb_ge in Hq. rewrite Hq, Hfind.
    assert (negb (madeToOrder menuItem) && (stock menuItem <? q) = false) as ->.
    { destruct Hok as [->|Hle]; [reflexivity|].
      apply andb_false_iff. right. now apply Z.ltb_ge. }
    fold (rewriteLines i (fun _ => q) cart).
    exists (rewriteLines i (fun _ => q) cart). split; [reflexivity|]. split.
    + unfold rewriteLines. apply length_map.
    + intros n line Hn.
      rewrite (rewriteLines_nth i (fun _ => q) cart n line Hn).
      split; intros Hid.
      * apply String.eqb_neq in Hid. now rewrite Hid.
      * apply String.eqb_eq in Hid. now rewrite Hid.
Qed.

Lemma updateQuantity_spec_witness :
  In "cookie"%string (map ci_id sampleCart)
  /\ findMenuItem sampleMenu "cookie" = Some cookie
  /\ updateQuantity sampleMenu sampleCart "cookie" 0 =
     Returned (removeFromCart sampleCart "cookie", [])
  /\ (exists notice,
        updateQuantity sampleMenu sampleCart "cookie" 4 = Returned (sampleCart, notice))
  /\ (exists cart',
        updateQuantity sampleMenu sampleCart "cookie" 3 = Returned (cart', [])
        /\ nth_error cart' 0 = Some (setLineQuantity (newLine cookie) 3)
        /\ nth_error cart' 1 = Some (newLine customCake)).
Proof.
  assert (In "cookie"%string (map ci_id sampleCart)) as Hin by (simpl; auto).
  assert (findMenuItem sampleMenu "cookie" = Some cookie) as Hfind by reflexivity.
  split; [exact Hin|]. split; [exact Hfind|].
  split; [|split].
  - apply (updateQuantity_spec sampleMenu sampleCart "cookie" 0 cookie Hin Hfind). lia.
  - apply (updateQuantity_spec sampleMenu sampleCart "cookie" 4 cookie Hin Hfind).
    + lia.
    + reflexivity.
    + simpl. lia.
  - destruct (updateQuantity_spec sampleMenu sampleCart "cookie" 3 cookie Hin Hfind)
      as (_ & _ & H).
    destruct H as (cart' & Hret & _ & Hnth); [lia|right; simpl; lia|].
    exists cart'. split; [exact Hret|]. split.
    + apply (Hnth 0%nat (setLineQuantity (newLine cookie) 2)); reflexivity.
    + apply (Hnth 1%nat (newLine customCake)); [reflexivity|]. simpl. discriminate.
Defined.

(** A line whose id is on no menu makes [updateQuantity] raise for [q >= 1];
    the page never offers that call, since the quantity buttons are drawn
    only for the lines of the two sub-order lists. *)
Lemma updateQuantity_unknown_id menuItems cart i q :
  1 <= q -> findMenuItem menuItems i = None ->
  updateQuantity menuItems cart i q = TypeError.
Proof.
  intros Hq Hfind. unfold updateQuantity.
  apply Z.ltb_ge in Hq. now rewrite Hq, Hfind.
Qed.

(** ** The order total and the two sub-orders *)

Lemma reduce_app xs ys acc :
  fold_left addLine (xs ++ ys) acc = fold_left addLine ys (fold_left addLine xs acc).
Proof. apply fold_left_app. Qed.

(** What [price || 0] does to each kind of price. *)
Lemma priceOrZero_cases :
  priceOrZero Undefined = 0%float
  /\ priceOrZero (Num nan) = 0%float
  /\ priceOrZero (Num 0%float) = 0%float
  /\ priceOrZero (Num (- 0)%float) = 0%float
  /\ forall f, PrimFloat.is_nan f = false -> PrimFloat.eqb f 0%float = false ->
               priceOrZero (Num f) = f.
Proof.
  repeat split; try reflexivity.
  intros f Hnan Hzero. unfold priceOrZero, truthyNumber.
  now rewrite Hnan, Hzero.
Qed.

(** C7, as the code has it.  Whatever the cart holds, the total computed by
    [formatOrderDetails] is the sum taken in double-precision arithmetic, in
    cart order and starting from 0, of the double-precision products price
    times quantity, where a price that is missing, [NaN] or zero counts as 0:
    the empty cart totals 0, and a line appended to the cart adds its
    product to the total of the lines before it. *)
Theorem cartTotal_is_running_sum cart menuItems line :
  cartTotal (formatOrderDetails [] menuItems) = 0%float
  /\ cartTotal (formatOrderDetails (cart ++ [line]) menuItems)
     = (cartTotal (formatOrderDetails cart menuItems)
        + priceOrZero (ci_price line) * numberOfZ (quantity line))%float
  /\ priceOrZero Undefined = 0%float
  /\ priceOrZero (Num nan) = 0%float
  /\ priceOrZero (Num 0%float) = 0%float
  /\ (forall f, PrimFloat.is_nan f = false -> PrimFloat.eqb f 0%float = false ->
                priceOrZero (Num f) = f).
Proof.
  split; [reflexivity|]. split.
  - simpl cartTotal. fold addLine. rewrite reduce_app. reflexivity.
  - destruct priceOrZero_cases as (H1 & H2 & H3 & _ & H5). auto.
Qed.

(** C7, as stated, fails: for three items at 0.1 the products and additions
    of doubles give 0.30000000000000004, which is not the number that three
    times the price stands for. *)
Lemma total_is_not_the_exact_sum :
  ~ totalAsStated [dimeLine] []
  /\ cartTotal (formatOrderDetails [dimeLine] []) = 0x1.3333333333334p-2%float.
Proof.
  split; [|reflexivity].
  intros [t [Ht Heq]]. vm_compute in Ht. injection Ht as <-.
  unfold Qeq in Heq. vm_compute in Heq. discriminate Heq.
Qed.

(** Where no product and no addition is rounded the two agree: two items at
    2.5 and one at 45 total 50. *)
Lemma total_exact_without_rounding :
  totalAsStated sampleCart sampleMenu
  /\ cartTotal (formatOrderDetails sampleCart sampleMenu) = 50%float.
Proof.
  split; [|reflexivity].
  eexists. split.
  - vm_compute. reflexivity.
  - unfold Qeq. vm_compute. reflexivity.
Qed.

(** C10.  A cart line enters the in-stock or the made-to-order list only when
    the menu has an item of its id.  A line whose id is on no menu is in
    neither list, and so in neither itemised section of the emails, while
    the total still counts it: the reduce runs over every line of the cart,
    and on reaching this one it adds the line's price times quantity to the
    total of the lines before it. *)
Theorem unmatched_line_counted_not_listed cart menuItems line data :
  In line cart ->
  findMenuItem menuItems (ci_id line) = None ->
  let details := formatOrderDetails cart menuItems in
  (forall l, In l (inStockItems details) \/ In l (madeToOrderItems details) ->
             exists menuItem, In menuItem menuItems /\ mi_id menuItem = ci_id l)
  /\ ~ In line (inStockItems details)
  /\ ~ In line (madeToOrderItems details)
  /\ ~ In line (in_stock_items (buildTemplateParams details data))
  /\ ~ In line (made_to_order_items (buildTemplateParams details data))
  /\ In line (unmatchedItems cart menuItems)
  /\ exists before rest,
       cart = before ++ line :: rest
       /\ cartTotal details
          = fold_left addLine rest
              (cartTotal (formatOrderDetails before menuItems)
               + priceOrZero (ci_price line) * numberOfZ (quantity line))%float.
Proof.
  intros Hin Hnone details.
  assert (~ In line (inStockItems details)) as Hn1.
  { simpl. rewrite filter_In, Hnone. intros [_ H]. discriminate. }
  assert (~ In line (madeToOrderItems details)) as Hn2.
  { simpl. rewrite filter_In, Hnone. intros [_ H]. discriminate. }
  split.
  { intros l [Hl|Hl]; simpl in Hl; apply filter_In in Hl; destruct Hl as [_ Hl];
      destruct (findMenuItem menuItems (ci_id l)) as [m|] eqn:E; try discriminate;
      exists m; now apply findMenuItem_id. }
  repeat (split; [assumption|]).
  split.
  { unfold unmatchedItems. apply filter_In. split; [assumption|].
    now rewrite Hnone. }
  destruct (in_split _ _ Hin) as (before & rest & Hcart).
  exists before, rest. split; [assumption|].
  unfold details. simpl cartTotal. fold addLine.
  rewrite Hcart, reduce_app. reflexivity.
Qed.

Lemma unmatched_line_counted_not_listed_witness :
  In strayLine (sampleCart ++ [strayLine])
  /\ findMenuItem sampleMenu (ci_id strayLine) = None
  /\ ~ In strayLine (inStockItems (formatOrderDetails (sampleCart ++ [strayLine]) sampleMenu))
  /\ ~ In strayLine (madeToOrderItems (formatOrderDetails (sampleCart ++ [strayLine]) sampleMenu))
  /\ cartTotal (formatOrderDetails (sampleCart ++ [strayLine]) sampleMenu) = 56%float
  /\ cartTotal (formatOrderDetails sampleCart sampleMenu) = 50%float.
Proof.
  assert (In strayLine (sampleCart ++ [strayLine])) as Hin by (simpl; auto).
  assert (findMenuItem sampleMenu (ci_id strayLine) = None) as Hnone by reflexivity.
  split; [exact Hin|]. split; [exact Hnone|].
  destruct (unmatched_line_counted_not_listed
              (sampleCart ++ [strayLine]) sampleMenu strayLine defaultValues Hin Hnone)
    as (_ & H1 & H2 & _).
  split; [exact H1|]. split; [exact H2|].
  split; reflexivity.
Defined.

(** ** Calendar arithmetic *)

Lemma getDay_range d : 0 <= getDay d < 7.
Proof. unfold getDay. apply Z.mod_pos_bound. lia. Qed.

Lemma dayNumber_startOfDay d : dayNumber (startOfDay d) = dayNumber d.
Proof.
  unfold startOfDay, dayNumber. apply Z.div_mul. unfold MS_PER_DAY. lia.
Qed.

Lemma dayNumber_addDays d n : dayNumber (addDays d n) = dayNumber d + n.
Proof.
  unfold addDays, dayNumber. apply Z.div_add. unfold MS_PER_DAY. lia.
Qed.

(** A date is not before midnight of day [k] exactly when its civil day is
    not before [k]. *)
Lemma midnight_le k date :
  k * MS_PER_DAY <= date <-> k <= dayNumber date.
Proof.
  unfold dayNumber, MS_PER_DAY. split; intros H.
  - apply Z.div_le_lower_bound; lia.
  - pose proof (Z.mul_div_le date 86400000). nia.
Qed.

Lemma startOfDay_addDays_le now n date :
  addDays (startOfDay now) n <= date <-> dayNumber now + n <= dayNumber date.
Proof.
  unfold addDays, startOfDay.
  replace (dayNumber now * MS_PER_DAY + n * MS_PER_DAY)
    with ((dayNumber now + n) * MS_PER_DAY) by ring.
  apply midnight_le.
Qed.

Lemma daysUntilNextSaturday_range now : 0 <= daysUntilNextSaturday now < 7.
Proof. unfold daysUntilNextSaturday. apply Z.mod_pos_bound. lia. Qed.

Lemma dayNumber_upcomingSaturday now :
  dayNumber (upcomingSaturday now) = dayNumber now + daysUntilNextSaturday now.
Proof.
  unfold upcomingSaturday. now rewrite dayNumber_addDays, dayNumber_startOfDay.
Qed.

(** The upcoming Saturday is a Saturday, today or within the next six days. *)
Lemma upcomingSaturday_is_saturday now :
  getDay (upcomingSaturday now) = 6
  /\ dayNumber now <= dayNumber (upcomingSaturday now) < dayNumber now + 7.
Proof.
  rewrite dayNumber_upcomingSaturday.
  pose proof (daysUntilNextSaturday_range now).
  split; [|lia].
  unfold getDay. rewrite dayNumber_upcomingSaturday.
  unfold daysUntilNextSaturday, getDay.
  generalize (dayNumber now). intros d.
  pose proof (Z.mod_pos_bound (d + 4) 7 ltac:(lia)) as B.
  pose proof (Z.div_mod (d + 4) 7 ltac:(lia)) as E.
  remember ((d + 4) mod 7) as g. remember ((d + 4) / 7) as k.
  replace (d + (6 - g + 7) mod 7 + 4) with ((g + (6 - g + 7) mod 7) + k * 7) by lia.
  rewrite Z.mod_add by lia.
  assert (g = 0 \/ g = 1 \/ g = 2 \/ g = 3 \/ g = 4 \/ g = 5 \/ g = 6) as Hg by lia.
  destruct Hg as [->|[->|[->|[->|[->|[->| ->]]]]]]; reflexivity.
Qed.

(** ** Pickup dates for made-to-order items *)

(** What [getAvailablePickupDates] computes for an order with made-to-order
    items: Saturdays, from the upcoming one before the Wednesday 18:00
    cutoff and from the one a week later after it. *)
Lemma getAvailablePickupDates_madeToOrder now date :
  getAvailablePickupDates now true date = true
  <-> (getDay date = 6 /\ earliestSaturday now <= date).
Proof.
  unfold getAvailablePickupDates, earliestSaturday.
  destruct (getDay date =? 6) eqn:E; simpl.
  - apply Z.eqb_eq in E.
    destruct (pastCutoff now); rewrite Z.leb_le; tauto.
  - apply Z.eqb_neq in E. split; [discriminate|tauto].
Qed.

Lemma pastCutoff_iff now :
  pastCutoff now = true
  <-> (3 < getDay now \/ (getDay now = 3 /\ 18 <= getHours now)).
Proof.
  unfold pastCutoff.
  rewrite orb_true_iff, andb_true_iff, Z.ltb_lt, Z.eqb_eq, Z.leb_le. tauto.
Qed.

Lemma earliestSaturday_day now :
  dayNumber (earliestSaturday now) =
  dayNumber (upcomingSaturday now) + (if pastCutoff now then 7 else 0).
Proof.
  unfold earliestSaturday, saturdayAfterNext.
  destruct (pastCutoff now); [apply dayNumber_addDays|lia].
Qed.

(** What the calendar of the made-to-order field lets the customer pick:
    Saturdays from the upcoming one on, whatever the time of the week. *)
Lemma madeToOrderCalendar_iff now date :
  madeToOrderCalendar now date = true
  <-> (getDay date = 6 /\ dayNumber (upcomingSaturday now) <= dayNumber date).
Proof.
  unfold madeToOrderCalendar, calendarSelectable.
  rewrite andb_true_iff, !negb_true_iff, negb_false_iff, Z.ltb_ge, Z.eqb_eq.
  tauto.
Qed.

(** Past the cutoff the calendar still offers the upcoming Saturday, which
    [getAvailablePickupDates] refuses. *)
Lemma calendar_offers_upcoming_saturday now :
  pastCutoff now = true ->
  madeToOrderCalendar now (upcomingSaturday now) = true
  /\ getAvailablePickupDates now true (upcomingSaturday now) = false.
Proof.
  intros Hcut. split.
  - apply madeToOrderCalendar_iff.
    destruct (upcomingSaturday_is_saturday now) as [Hsat _]. split; [assumption|lia].
  - destruct (getAvailablePickupDates now true (upcomingSaturday now)) eqn:E;
      [|reflexivity].
    apply getAvailablePickupDates_madeToOrder in E. destruct E as [_ Hle].
    unfold earliestSaturday in Hle. rewrite Hcut in Hle.
    unfold saturdayAfterNext, addDays, MS_PER_DAY in Hle. lia.
Qed.

(** C4 (the code departs from the claim).  On a Thursday morning, and on a
    Wednesday at 18:01, the weekly cutoff has passed and the earliest
    Saturday of the rule is the one a week after the upcoming Saturday;
    [getAvailablePickupDates] refuses the upcoming Saturday, but the calendar
    of the made-to-order field, which does not consult it, offers that
    Saturday.  Before the cutoff (Wednesday 17:59) both agree. *)
Theorem madeToOrderCalendar_offers_closed_saturday :
  (pastCutoff thursdayMorning = true
   /\ upcomingSaturday thursdayMorning = saturdayThisWeek
   /\ earliestSaturday thursdayMorning = saturdayNextWeek
   /\ getAvailablePickupDates thursdayMorning true saturdayThisWeek = false
   /\ madeToOrderCalendar thursdayMorning saturdayThisWeek = true)
  /\ (pastCutoff wednesday1801 = true
      /\ upcomingSaturday wednesday1801 = saturdayThisWeek
      /\ earliestSaturday wednesday1801 = saturdayNextWeek
      /\ getAvailablePickupDates wednesday1801 true saturdayThisWeek = false
      /\ madeToOrderCalendar wednesday1801 saturdayThisWeek = true)
  /\ (pastCutoff wednesday1759 = false
      /\ earliestSaturday wednesday1759 = saturdayThisWeek
      /\ getAvailablePickupDates wednesday1759 true saturdayThisWeek = true
      /\ madeToOrderCalendar wednesday1759 saturdayThisWeek = true).
Proof.
  repeat split; vm_compute; reflexivity.
Qed.

(** ** Pickup dates for in-stock items *)

Lemma weekday_not_weekend date :
  ((getDay date =? 0) || (getDay date =? 6) = false) <-> isWeekday date.
Proof.
  unfold isWeekday. pose proof (getDay_range date).
  rewrite orb_false_iff, !Z.eqb_neq. lia.
Qed.

(** C5, as the code has it.  For an order without made-to-order items a
    date is eligible exactly when it is a weekday (Monday to Friday) on or
    after tomorrow, that is, strictly after today; Saturdays, Sundays, today
    and earlier days are excluded.  The calendar of the in-stock field offers
    the same days. *)
Theorem inStock_dates_from_tomorrow now date :
  (getAvailablePickupDates now false date = true
   <-> (isWeekday date /\ dayNumber now + 1 <= dayNumber date))
  /\ (inStockCalendar now date = true
      <-> (isWeekday date /\ dayNumber now + 1 <= dayNumber date)).
Proof.
  split.
  - unfold getAvailablePickupDates, isWeekday.
    rewrite !andb_true_iff, !Z.leb_le, startOfDay_addDays_le. tauto.
  - unfold inStockCalendar, calendarSelectable.
    rewrite andb_true_iff, !negb_true_iff, Z.ltb_ge, dayNumber_addDays.
    rewrite weekday_not_weekend. tauto.
Qed.

(** C5, as stated, fails: on a Monday the Tuesday that follows is tomorrow,
    not strictly after tomorrow, and it is eligible. *)
Lemma tomorrow_is_eligible :
  ~ inStockRuleAsStated mondayNoon tuesdayMidnight.
Proof.
  unfold inStockRuleAsStated. intros [H _].
  assert (getAvailablePickupDates mondayNoon false tuesdayMidnight = true) as E
    by (vm_compute; reflexivity).
  destruct (H E) as [_ Hlt]. vm_compute in Hlt. discriminate.
Qed.

(** ** Pickup times *)

(** The function [getAvailablePickupTimes], which the page does not call,
    lists noon to 6 PM without made-to-order items and 9 AM to 6 PM with
    them. *)
Lemma getAvailablePickupTimes_grids :
  getAvailablePickupTimes false = halfHourGrid 12 18
  /\ getAvailablePickupTimes true = halfHourGrid 9 18.
Proof. split; reflexivity. Qed.

(** C6, as the code has it.  Both pickup-time fields offer exactly the
    half-hour grid from 9:00 AM to 5:00 PM inclusive, seventeen times, taken
    from [PICKUP_TIMES]. *)
Theorem pickup_time_options_nine_to_five :
  inStockPickupTimeOptions = halfHourGrid 9 17
  /\ madeToOrderPickupTimeOptions = halfHourGrid 9 17
  /\ List.length PICKUP_TIMES = 17%nat.
Proof. repeat split; reflexivity. Qed.

(** C6, as stated, fails on both fields: the in-stock field does not offer
    the grid from 12:00 PM to 6:00 PM, and the made-to-order field does not
    offer the grid from 9:00 AM to 6:00 PM; both start at 9:00 AM and stop at
    5:00 PM. *)
Lemma pickup_times_not_as_stated :
  ~ pickupTimesAsStated
  /\ inStockPickupTimeOptions <> halfHourGrid 12 18
  /\ madeToOrderPickupTimeOptions <> halfHourGrid 9 18
  /\ In "9:00 AM"%string inStockPickupTimeOptions
  /\ ~ In "6:00 PM"%string madeToOrderPickupTimeOptions.
Proof.
  split; [|split; [|split; [|split]]].
  - unfold pickupTimesAsStated. intros [H _]. vm_compute in H. discriminate.
  - intros H. vm_compute in H. discriminate.
  - intros H. vm_compute in H. discriminate.
  - simpl. auto.
  - simpl. intros H.
    repeat (destruct H as [H|H]; [discriminate|]). exact H.
Qed.

(** ** Submission *)

Lemma setIsSubmitting_back st :
  isSubmitting st = false ->
  setIsSubmitting (setIsSubmitting st true) false = st.
Proof.
  destruct st as [c f b o]. simpl. intros ->. reflexivity.
Qed.

Lemma length_zero_iff_nil {A : Type} (l : list A) :
  (List.length l =? 0)%nat = true <-> l = [].
Proof.
  destruct l; simpl; split; intros H; try reflexivity; discriminate.
Qed.

(** A submission that does not go through leaves the page as it was. *)
Lemma onSubmit_failure_keeps_state env menuItems st data :
  customerSendOk env && bakerySendOk env && addOrderOk env = false ->
  after (onSubmit env menuItems st data) = st.
Proof.
  intros Hfail. unfold onSubmit.
  destruct (isSubmitting st) eqn:Hs; [reflexivity|]. simpl orb.
  destruct (List.length (cart st) =? 0)%nat; [reflexivity|].
  destruct (customerSendOk env), (bakerySendOk env), (addOrderOk env);
    try discriminate; simpl; now apply setIsSubmitting_back.
Qed.

(** C9.  With an empty cart [onSubmit] returns at its first line: no email is
    sent, [addOrder] is not called, no notice is raised and the state is the
    one it started from; the same holds of the form's submit handler. *)
Theorem onSubmit_empty_cart env menuItems st data :
  cart st = [] ->
  onSubmit env menuItems st data = {| after := st; calls := []; toasts := [] |}
  /\ formSubmitHandler env menuItems st = {| after := st; calls := []; toasts := [] |}.
Proof.
  intros Hempty. unfold formSubmitHandler, onSubmit.
  rewrite Hempty. simpl. rewrite orb_true_r. split; reflexivity.
Qed.

Lemma onSubmit_empty_cart_witness :
  cart emptyCartState = []
  /\ calls (onSubmit allFulfil sampleMenu emptyCartState defaultValues) = []
  /\ after (onSubmit allFulfil sampleMenu emptyCartState defaultValues) = emptyCartState.
Proof.
  split; [reflexivity|].
  destruct (onSubmit_empty_cart allFulfil sampleMenu emptyCartState defaultValues eq_refl)
    as [H _].
  rewrite H. split; reflexivity.
Defined.

(** C3.  A submission that starts (nothing in flight, cart not empty) sends
    both emails at once.  If either send fails, [addOrder] is not called; if
    either send or [addOrder] fails, the state after the submission (cart,
    form values, recorded orders, [isSubmitting]) is the state before it and
    the failure notice is raised.  Only when all three succeed is the order
    recorded, the cart emptied and the form reset to its defaults. *)
Theorem onSubmit_all_or_nothing env menuItems st data :
  isSubmitting st = false ->
  cart st <> [] ->
  let details := formatOrderDetails (cart st) menuItems in
  let result := onSubmit env menuItems st data in
  filter isEmailSend (calls result) =
    [EmailSend (buildTemplateParams details data);
     EmailSend (withRecipient (buildTemplateParams details data) BAKERY_EMAIL)]
  /\ (customerSendOk env && bakerySendOk env = false ->
      filter isAddOrder (calls result) = [])
  /\ (customerSendOk env && bakerySendOk env && addOrderOk env = false ->
      after result = st /\ toasts result = [SubmitError])
  /\ (customerSendOk env && bakerySendOk env && addOrderOk env = true ->
      after result =
        {| cart := []; formValues := defaultValues; isSubmitting := false;
           orders := orders st ++ [buildOrder details data] |}
      /\ filter isAddOrder (calls result) = [AddOrder (buildOrder details data)]
      /\ toasts result = [OrderReceived])
  /\ (cart (after result) = [] ->
      customerSendOk env && bakerySendOk env && addOrderOk env = true).
Proof.
  intros Hidle Hcart details result.
  assert ((List.length (cart st) =? 0)%nat = false) as Hlen.
  { destruct (cart st); [contradiction|reflexivity]. }
  assert (after result = st -> cart (after result) <> []) as Hkeep.
  { intros ->. assumption. }
  pose proof (onSubmit_failure_keeps_state env menuItems st data) as Hfail.
  fold result in Hfail.
  unfold result, details in *. clear result details.
  unfold onSubmit in *. rewrite Hidle, Hlen in *. simpl orb in *. cbv iota in *.
  destruct (customerSendOk env), (bakerySendOk env), (addOrderOk env);
    simpl in *;
    repeat split; try reflexivity; try discriminate;
    try (intros; now apply setIsSubmitting_back);
    try (intros Hnil; exfalso; now apply (Hkeep (Hfail eq_refl))).
Qed.

Lemma onSubmit_all_or_nothing_witness :
  isSubmitting untouchedFormState = false
  /\ cart untouchedFormState <> []
  /\ after (onSubmit {| customerSendOk := true; bakerySendOk := false; addOrderOk := true |}
                     sampleMenu untouchedFormState defaultValues) = untouchedFormState
  /\ cart (after (onSubmit allFulfil sampleMenu untouchedFormState defaultValues)) = [].
Proof.
  assert (isSubmitting untouchedFormState = false) as Hidle by reflexivity.
  assert (cart untouchedFormState <> []) as Hcart by (simpl; discriminate).
  split; [exact Hidle|]. split; [exact Hcart|]. split.
  - apply (onSubmit_all_or_nothing
             {| customerSendOk := true; bakerySendOk := false; addOrderOk := true |}
             sampleMenu untouchedFormState defaultValues Hidle Hcart).
    reflexivity.
  - destruct (onSubmit_all_or_nothing allFulfil sampleMenu untouchedFormState
                defaultValues Hidle Hcart) as (_ & _ & _ & Hok & _).
    destruct (Hok eq_refl) as [Hafter _]. rewrite Hafter. reflexivity.
Defined.

(** Whatever the form holds, a submission that starts sends both emails. *)
Lemma formSubmitHandler_sends_whatever_the_values env menuItems st :
  isSubmitting st = false ->
  cart st <> [] ->
  exists customerMail bakeryMail rest,
    calls (formSubmitHandler env menuItems st)
    = EmailSend customerMail :: EmailSend bakeryMail :: rest.
Proof.
  intros Hidle Hcart. unfold formSubmitHandler, onSubmit.
  rewrite Hidle. simpl orb.
  destruct (cart st) as [|line more] eqn:E; [contradiction|]. simpl Nat.eqb. cbv iota.
  destruct (customerSendOk env), (bakerySendOk env), (addOrderOk env);
    simpl; eauto.
Qed.

(** C1 (the code departs from the claim).  The form's submit handler reads
    the values with [getValues] and calls [onSubmit] without running the
    resolver.  With one cookie in the cart and a form nobody has filled in
    (empty name, email and phone, no pickup date or time) the schema of
    [createValidationSchema] rejects the values, whatever the email check,
    and so do the rules of the specification; the handler nevertheless sends
    both emails, records the order and clears the cart. *)
Theorem formSubmitHandler_skips_validation :
  (forall isEmail,
      createValidationSchema isEmail (cart untouchedFormState) sampleMenu
                             (formValues untouchedFormState) = false)
  /\ (forall isEmail,
         validationRules isEmail (cart untouchedFormState) sampleMenu
                         (formValues untouchedFormState) = false)
  /\ map isEmailSend (calls (formSubmitHandler allFulfil sampleMenu untouchedFormState))
     = [true; true; false]
  /\ List.length (orders (after (formSubmitHandler allFulfil sampleMenu untouchedFormState)))
     = 1%nat
  /\ cart (after (formSubmitHandler allFulfil sampleMenu untouchedFormState)) = []
  /\ toasts (formSubmitHandler allFulfil sampleMenu untouchedFormState) = [OrderReceived].
Proof.
  repeat split; reflexivity.
Qed.

(* ================================================================== *)
(** * Further properties of the page *)
(* ================================================================== *)

(** ** The phone field *)

Lemma filter_isDigit_all value :
  Forall (fun c => isDigit c = true) (filter isDigit value).
Proof.
  apply Forall_forall. intros c Hc. apply filter_In in Hc. tauto.
Qed.

Lemma filter_isDigit_digits ds :
  Forall (fun c => isDigit c = true) ds -> filter isDigit ds = ds.
Proof.
  induction 1 as [|d rest Hd _ IH]; simpl; [reflexivity|].
  now rewrite Hd, IH.
Qed.

Lemma isDigit_not_whiteSpace c : isDigit c = true -> isWhiteSpace c = false.
Proof.
  unfold isDigit, isWhiteSpace. rewrite andb_true_iff, !Z.leb_le. intros [Hlo Hhi].
  repeat (apply orb_false_intro);
    try (apply Z.eqb_neq; lia);
    apply andb_false_iff;
    first [ left; apply Z.leb_gt; lia | right; apply Z.leb_gt; lia ].
Qed.

Lemma isDigit_not_dash c : isDigit c = true -> isDash c = false.
Proof.
  unfold isDigit, isDash, DASH. rewrite andb_true_iff, !Z.leb_le. intros [Hlo Hhi].
  apply Z.eqb_neq. lia.
Qed.

Lemma isDash_char c : isDash c = true -> c = DASH.
Proof. unfold isDash. apply Z.eqb_eq. Qed.

Lemma DASH_not_digit : isDigit DASH = false.
Proof. reflexivity. Qed.

Lemma DASH_is_dash : isDash DASH = true.
Proof. reflexivity. Qed.

(** The grouping step of [formatPhoneNumber], on the digits alone. *)
Lemma formatPhoneNumber_digits value :
  formatPhoneNumber value = formatPhoneNumber (filter isDigit value).
Proof.
  unfold formatPhoneNumber.
  now rewrite (filter_isDigit_digits _ (filter_isDigit_all _)).
Qed.

Ltac digit_cases ds :=
  destruct ds as [|?d [|?d [|?d [|?d [|?d [|?d [|?d [|?d [|?d [|?d ?rest]]]]]]]]]].

Ltac use_digits :=
  repeat match goal with
         | H : Forall _ (_ :: _) |- _ => inversion H; subst; clear H
         | H : Forall _ [] |- _ => clear H
         end.

Ltac rewrite_digits :=
  rewrite ?DASH_not_digit, ?DASH_is_dash;
  repeat match goal with
         | H : isDigit ?d = true |- _ =>
             rewrite ?H, ?(isDigit_not_dash d H), ?(isDigit_not_whiteSpace d H);
             clear H
         end.

Ltac list_steps :=
  cbn [List.length Nat.ltb Nat.leb slice Nat.sub skipn firstn app filter Nat.min].

(** X1.  [formatPhoneNumber] yields a number that the phone pattern of the
    schema accepts exactly when the typed text holds at least ten digits. *)
Theorem formatPhoneNumber_valid_iff value :
  phonePattern (formatPhoneNumber value) = true
  <-> (10 <= List.length (filter isDigit value))%nat.
Proof.
  unfold formatPhoneNumber.
  pose proof (filter_isDigit_all value) as Hall.
  remember (filter isDigit value) as ds eqn:E. clear E.
  digit_cases ds; list_steps; cbn [phonePattern]; try (split; [discriminate|lia]).
  split; [lia|intros _].
  destruct rest; use_digits; list_steps; cbn [phonePattern];
    rewrite_digits; reflexivity.
Qed.

(** X2.  Formatting a second time changes nothing, so the handler can run on
    its own output at every keystroke. *)
Theorem formatPhoneNumber_idempotent value :
  formatPhoneNumber (formatPhoneNumber value) = formatPhoneNumber value.
Proof.
  rewrite (formatPhoneNumber_digits value).
  pose proof (filter_isDigit_all value) as Hall.
  remember (filter isDigit value) as ds eqn:E. clear E.
  unfold formatPhoneNumber.
  rewrite (filter_isDigit_digits ds Hall).
  digit_cases ds; use_digits; list_steps; rewrite_digits; list_steps; reflexivity.
Qed.

(** X3.  The formatted value holds digits and dashes only, and its length is
    fixed by the number [n] of digits typed: the first ten digits, one dash
    once there are more than three and a second once there are more than
    six; it never exceeds the 12 characters of the input field. *)
Theorem formatPhoneNumber_shape value :
  let n := List.length (filter isDigit value) in
  Forall (fun c => isDigit c || isDash c = true) (formatPhoneNumber value)
  /\ List.length (formatPhoneNumber value)
     = (Nat.min n 10 + (if 3 <? n then 1 else 0) + (if 6 <? n then 1 else 0))%nat
  /\ (List.length (formatPhoneNumber value) <= 12)%nat.
Proof.
  intros n. subst n.
  unfold formatPhoneNumber.
  pose proof (filter_isDigit_all value) as Hall.
  remember (filter isDigit value) as ds eqn:E. clear E.
  digit_cases ds; use_digits; list_steps;
    (split; [repeat constructor; rewrite_digits; reflexivity|]);
    try (split; [reflexivity|lia]).
  destruct rest; list_steps; (split; [reflexivity|lia]).
Qed.

Lemma trim_fixed first middle last :
  isWhiteSpace first = false ->
  isWhiteSpace last = false ->
  trim (first :: middle ++ [last]) = first :: middle ++ [last].
Proof.
  intros Hf Hl. unfold trim. cbn [trimStart]. rewrite Hf.
  change (first :: middle ++ [last]) with ((first :: middle) ++ [last]).
  rewrite rev_app_distr. cbn [rev app trimStart]. rewrite Hl.
  change (last :: rev middle ++ [first]) with ([last] ++ rev (first :: middle)).
  rewrite rev_app_distr, rev_involutive. reflexivity.
Qed.

(** X4.  A phone number that matches the pattern has exactly 12 characters
    and no blank at either end, so the length and required rules of the
    schema add nothing to the pattern; and [formatPhoneNumber] leaves it as
    typed. *)
Theorem phonePattern_fixed_point p :
  phonePattern p = true ->
  List.length p = 12%nat
  /\ trim p = p
  /\ formatPhoneNumber p = p.
Proof.
  unfold phonePattern.
  do 12 (destruct p as [|? p]; try discriminate).
  destruct p; try discriminate.
  rewrite !andb_true_iff. intros H.
  repeat match goal with H : _ /\ _ |- _ => destruct H end.
  repeat match goal with
         | H : isDash ?c = true |- _ => apply isDash_char in H; subst c
         end.
  split; [reflexivity|].
  split.
  - match goal with
    | |- trim (?a :: ?m) = _ =>
        apply (trim_fixed a (removelast m) (last m 0))
    end; now apply isDigit_not_whiteSpace.
  - unfold formatPhoneNumber. cbn [filter]. rewrite_digits. list_steps. reflexivity.
Qed.

Lemma phonePattern_fixed_point_witness :
  phonePattern (phone filledForm) = true
  /\ formatPhoneNumber (phone filledForm) = phone filledForm.
Proof.
  assert (phonePattern (phone filledForm) = true) as H by reflexivity.
  split; [exact H|].
  apply (phonePattern_fixed_point (phone filledForm) H).
Defined.

(** ** The name field *)

Lemma trimStart_nil_iff l :
  trimStart l = [] <-> Forall (fun c => isWhiteSpace c = true) l.
Proof.
  induction l as [|c rest IH]; cbn [trimStart].
  - split; [constructor|reflexivity].
  - destruct (isWhiteSpace c) eqn:E.
    + rewrite IH. split; intros H.
      * now constructor.
      * now inversion H.
    + split; [discriminate|]. intros H. inversion H. congruence.
Qed.

Lemma trimStart_incl l c : In c (trimStart l) -> In c l.
Proof.
  induction l as [|d rest IH]; cbn [trimStart]; [auto|].
  destruct (isWhiteSpace d); simpl; auto.
Qed.

(** What is left after [trim] is empty exactly when the string is blank. *)
Lemma trim_empty_iff l :
  List.length (trim l) = 0%nat
  <-> Forall (fun c => isWhiteSpace c = true) l.
Proof.
  unfold trim. rewrite length_rev.
  rewrite List.length_zero_iff_nil, trimStart_nil_iff.
  split; intros H.
  - apply trimStart_nil_iff.
    destruct (trimStart l) as [|c rest] eqn:E; [reflexivity|exfalso].
    assert (isWhiteSpace c = false) as Hc.
    { clear H. induction l as [|d more IH]; cbn [trimStart] in E; [discriminate|].
      destruct (isWhiteSpace d) eqn:Ed; [auto|]. congruence. }
    rewrite Forall_forall in H. rewrite (H c) in Hc; [discriminate|].
    apply in_rev. rewrite rev_involutive. now left.
  - apply Forall_forall. intros c Hc. apply in_rev in Hc.
    rewrite Forall_forall in H. apply H. now apply trimStart_incl.
Qed.

(** X5.  The name rule of the schema holds exactly of the names with at
    least two code units of which at least one is not white space; the
    blanks around the name count towards the two.  Every value the object
    schema accepts passes it. *)
Theorem nameRule_iff n :
  (nameRule n = true
   <-> ((2 <= List.length n)%nat
        /\ exists c, In c n /\ isWhiteSpace c = false))
  /\ (forall isEmail data,
         name data = n -> orderFormSchema isEmail data = true -> nameRule n = true).
Proof.
  split.
  - unfold nameRule. rewrite andb_true_iff, Nat.leb_le, Nat.ltb_lt.
    pose proof (trim_empty_iff n) as Ht.
    split; intros [Hlen Hrest]; (split; [assumption|]).
    + destruct (existsb (fun c => negb (isWhiteSpace c)) n) eqn:E.
      * apply existsb_exists in E. destruct E as [c [Hin Hc]].
        exists c. split; [assumption|]. now apply negb_true_iff.
      * exfalso. assert (List.length (trim n) = 0%nat); [|lia].
        apply Ht. apply Forall_forall. intros c Hin.
        destruct (isWhiteSpace c) eqn:Ec; [reflexivity|].
        assert (existsb (fun c => negb (isWhiteSpace c)) n = true);
          [|congruence].
        apply existsb_exists. exists c. now rewrite Ec.
    + destruct Hrest as [c [Hin Hc]].
      assert (List.length (trim n) <> 0%nat) as Hne; [|lia].
      intros E. apply Ht in E. rewrite Forall_forall in E. rewrite (E c Hin) in Hc. discriminate.
  - intros isEmail data <- H. unfold orderFormSchema in H.
    do 6 (apply andb_true_iff in H; destruct H as [H _]).
    exact H.
Qed.

(** ** The module-level date helper *)

Lemma daysUntilNextSaturday_eq now :
  daysUntilNextSaturday now = 6 - getDay now.
Proof.
  unfold daysUntilNextSaturday. pose proof (getDay_range now).
  replace (6 - getDay now + 7) with (6 - getDay now + 1 * 7) by ring.
  rewrite Z.mod_add by lia. apply Z.mod_small. lia.
Qed.

Lemma getDay_week_later d : getDay (addDays d 7) = getDay d.
Proof.
  unfold getDay. rewrite dayNumber_addDays.
  replace (dayNumber d + 7 + 4) with (dayNumber d + 4 + 1 * 7) by ring.
  apply Z.mod_add. lia.
Qed.

Lemma upcomingSaturday_midnight now :
  upcomingSaturday now = dayNumber (upcomingSaturday now) * MS_PER_DAY.
Proof.
  rewrite dayNumber_upcomingSaturday.
  unfold upcomingSaturday, addDays, startOfDay, Date. ring.
Qed.

Lemma saturdayAfterNext_le now date :
  saturdayAfterNext now <= date
  <-> dayNumber (upcomingSaturday now) + 7 <= dayNumber date.
Proof.
  unfold saturdayAfterNext. rewrite (upcomingSaturday_midnight now) at 1.
  unfold addDays.
  replace (dayNumber (upcomingSaturday now) * MS_PER_DAY + 7 * MS_PER_DAY)
    with ((dayNumber (upcomingSaturday now) + 7) * MS_PER_DAY) by ring.
  apply midnight_le.
Qed.

Lemma upcomingSaturday_le now date :
  upcomingSaturday now <= date
  <-> dayNumber (upcomingSaturday now) <= dayNumber date.
Proof.
  rewrite (upcomingSaturday_midnight now) at 1. apply midnight_le.
Qed.

Lemma same_weekday_same_day a b :
  getDay a = getDay b ->
  dayNumber b <= dayNumber a < dayNumber b + 7 ->
  dayNumber a = dayNumber b.
Proof.
  unfold getDay. generalize (dayNumber a) (dayNumber b). intros x y Heq Hr.
  pose proof (Z.div_mod (x + 4) 7 ltac:(lia)).
  pose proof (Z.div_mod (y + 4) 7 ltac:(lia)).
  lia.
Qed.

(** X6.  For an order with made-to-order items the helper returns the
    midnight of a Saturday that lies 3 to 6 days ahead before the Wednesday
    18:00 cutoff and 7 to 10 days ahead after it: such an order always has at
    least three days of notice. *)
Theorem madeToOrder_first_date now :
  let first := ModuleLevel.getAvailablePickupDates now true in
  getDay first = 6
  /\ startOfDay first = first
  /\ (if pastCutoff now
      then dayNumber now + 7 <= dayNumber first <= dayNumber now + 10
      else dayNumber now + 3 <= dayNumber first <= dayNumber now + 6).
Proof.
  intros first. subst first. unfold ModuleLevel.getAvailablePickupDates.
  pose proof (upcomingSaturday_is_saturday now) as [Hsat _].
  pose proof (dayNumber_upcomingSaturday now) as Hday.
  rewrite daysUntilNextSaturday_eq in Hday.
  pose proof (getDay_range now) as Hg.
  destruct (pastCutoff now) eqn:Hcut.
  - apply pastCutoff_iff in Hcut. repeat split.
    + unfold saturdayAfterNext. now rewrite getDay_week_later.
    + unfold startOfDay, saturdayAfterNext. rewrite dayNumber_addDays.
      rewrite (upcomingSaturday_midnight now) at 2. unfold addDays, Date. ring.
    + unfold saturdayAfterNext. rewrite dayNumber_addDays. lia.
    + unfold saturdayAfterNext. rewrite dayNumber_addDays. lia.
  - assert (~ (3 < getDay now)) as Hle.
    { intros Hgt. assert (pastCutoff now = true); [|congruence].
      apply pastCutoff_iff. now left. }
    repeat split.
    + assumption.
    + unfold startOfDay. now rewrite <- upcomingSaturday_midnight.
    + lia.
    + lia.
Qed.

(** X7.  The two date helpers agree: the component-level one accepts a date
    exactly when it falls on the right kind of day (a Saturday with
    made-to-order items, a weekday without) and is not before the first day
    the module-level one returns. *)
Theorem date_helpers_agree now hasMadeToOrderItems date :
  getAvailablePickupDates now hasMadeToOrderItems date = true
  <-> ((if hasMadeToOrderItems then getDay date = 6 else isWeekday date)
       /\ ModuleLevel.getAvailablePickupDates now hasMadeToOrderItems <= date).
Proof.
  destruct hasMadeToOrderItems.
  - apply getAvailablePickupDates_madeToOrder.
  - unfold getAvailablePickupDates, ModuleLevel.getAvailablePickupDates, isWeekday.
    rewrite !andb_true_iff, !Z.leb_le. tauto.
Qed.

(** X8.  Every date the component-level helper accepts for made-to-order
    items can be picked in the calendar of the made-to-order field; the
    calendar offers one day more only after the cutoff, and that day is the
    upcoming Saturday. *)
Theorem calendar_versus_helper now date :
  (getAvailablePickupDates now true date = true ->
   madeToOrderCalendar now date = true)
  /\ ((madeToOrderCalendar now date = true
       /\ getAvailablePickupDates now true date = false)
      <-> (pastCutoff now = true
           /\ dayNumber date = dayNumber (upcomingSaturday now))).
Proof.
  pose proof (upcomingSaturday_is_saturday now) as [Hsat _].
  split.
  - intros H. apply getAvailablePickupDates_madeToOrder in H.
    destruct H as [Hd Hle]. apply madeToOrderCalendar_iff. split; [assumption|].
    unfold earliestSaturday in Hle. destruct (pastCutoff now).
    + apply saturdayAfterNext_le in Hle. lia.
    + now apply upcomingSaturday_le.
  - split.
    + intros [Hcal Hno]. apply madeToOrderCalendar_iff in Hcal.
      destruct Hcal as [Hd Hle].
      assert (~ (earliestSaturday now <= date)) as Hnot.
      { intros Hle'.
        assert (getAvailablePickupDates now true date = true); [|congruence].
        apply getAvailablePickupDates_madeToOrder. auto. }
      unfold earliestSaturday in Hnot. destruct (pastCutoff now).
      * split; [reflexivity|]. rewrite saturdayAfterNext_le in Hnot.
        apply same_weekday_same_day; [congruence|lia].
      * exfalso. apply Hnot. now apply upcomingSaturday_le.
    + intros [Hcut Hday]. split.
      * apply madeToOrderCalendar_iff. split; [|lia].
        unfold getDay in *. rewrite Hday. assumption.
      * destruct (getAvailablePickupDates now true date) eqn:E; [|reflexivity].
        apply getAvailablePickupDates_madeToOrder in E. destruct E as [_ Hle].
        unfold earliestSaturday in Hle. rewrite Hcut in Hle.
        apply saturdayAfterNext_le in Hle. lia.
Qed.

(** ** Composing the cart handlers *)

Lemma removeFromCart_rewriteLines i f cart :
  removeFromCart (rewriteLines i f cart) i = removeFromCart cart i.
Proof.
  unfold removeFromCart, rewriteLines.
  induction cart as [|c rest IH]; simpl; [reflexivity|].
  destruct (String.eqb (ci_id c) i) eqn:E; simpl; rewrite E; simpl; [assumption|].
  now rewrite IH.
Qed.

Lemma removeFromCart_absent cart i :
  ~ In i (map ci_id cart) -> removeFromCart cart i = cart.
Proof.
  unfold removeFromCart.
  induction cart as [|c rest IH]; simpl; intros Hn; [reflexivity|].
  destruct (String.eqb (ci_id c) i) eqn:E; simpl.
  - apply String.eqb_eq in E. exfalso. apply Hn. now left.
  - rewrite IH; [reflexivity|]. intros Hin. apply Hn. now right.
Qed.

Lemma removeFromCart_app cart more i :
  removeFromCart (cart ++ more) i = removeFromCart cart i ++ removeFromCart more i.
Proof. unfold removeFromCart. apply filter_app. Qed.

(** X9.  Removing an item right after adding it gives the cart that removing
    it alone gives, whether the add went through or not; when the item was
    not in the cart before, the cart is back as it was. *)
Theorem add_then_remove cart item :
  removeFromCart (fst (addToCart cart item)) (mi_id item)
  = removeFromCart cart (mi_id item)
  /\ (findCartItem cart (mi_id item) = None ->
      removeFromCart (fst (addToCart cart item)) (mi_id item) = cart).
Proof.
  assert (removeFromCart (fst (addToCart cart item)) (mi_id item)
          = removeFromCart cart (mi_id item)) as Hmain.
  { unfold addToCart.
    destruct (negb (madeToOrder item) && (stock item <=? 0)); [reflexivity|].
    destruct (findCartItem cart (mi_id item)) as [e|].
    - destruct (negb (madeToOrder item) && (stock item <=? quantity e));
        [reflexivity|]. simpl.
      apply (removeFromCart_rewriteLines (mi_id item) (fun c => quantity c + 1)).
    - rewrite andb_false_r. simpl. rewrite removeFromCart_app.
      unfold removeFromCart at 2. simpl. rewrite String.eqb_refl. simpl.
      apply app_nil_r. }
  split; [assumption|].
  intros Hnone. rewrite Hmain. apply removeFromCart_absent.
  now apply findCartItem_none.
Qed.

Lemma one_line_per_id cart line other :
  NoDup (map ci_id cart) ->
  In line cart -> In other cart -> ci_id other = ci_id line -> other = line.
Proof.
  induction cart as [|c rest IH]; simpl; intros Hnd Hl Ho Hid; [contradiction|].
  inversion Hnd as [|? ? Hnotin Hnd']; subst.
  destruct Hl as [<-|Hl], Ho as [<-|Ho]; auto.
  - exfalso. apply Hnotin. rewrite <- Hid. now apply in_map.
  - exfalso. apply Hnotin. rewrite Hid. now apply in_map.
Qed.

Lemma findCartItem_of_line cart line :
  NoDup (map ci_id cart) -> In line cart ->
  findCartItem cart (ci_id line) = Some line.
Proof.
  intros Hnd Hin.
  destruct (findCartItem cart (ci_id line)) as [e|] eqn:E.
  - apply findCartItem_id in E. destruct E as [He Hid].
    f_equal. now apply (one_line_per_id cart line e).
  - apply findCartItem_none in E. exfalso. apply E. now apply in_map.
Qed.

Lemma rewriteLines_agree i f g cart :
  (forall l, In l cart -> ci_id l = i -> f l = g l) ->
  rewriteLines i f cart = rewriteLines i g cart.
Proof.
  intros H. unfold rewriteLines. apply map_ext_in. intros l Hl.
  destruct (String.eqb (ci_id l) i) eqn:E; [|reflexivity].
  apply String.eqb_eq in E. now rewrite (H l Hl E).
Qed.

Lemma rewriteLines_twice i f g cart :
  rewriteLines i (fun _ => g) (rewriteLines i f cart) = rewriteLines i (fun _ => g) cart.
Proof.
  unfold rewriteLines. rewrite map_map. apply map_ext. intros l.
  destruct (String.eqb (ci_id l) i) eqn:E; simpl; rewrite E; reflexivity.
Qed.

Lemma rewriteLines_same_quantity i cart :
  rewriteLines i quantity cart = cart.
Proof.
  unfold rewriteLines. rewrite <- (map_id cart) at 2. apply map_ext. intros l.
  destruct (String.eqb (ci_id l) i); [|reflexivity]. now destruct l.
Qed.

(** X10.  In a cart with one line per id and quantities of at least 1,
    [addToCart] goes through exactly when the item is made to order or the
    cart holds fewer units of it than are in stock.  When it does not, the
    cart is unchanged; when it does, the cart holds exactly one more unit of
    that item and as much as before of every other. *)
Theorem addToCart_one_more_unit cart item j :
  NoDup (map ci_id cart) ->
  Forall (fun line => 1 <= quantity line) cart ->
  (addAccepted cart item = false -> fst (addToCart cart item) = cart)
  /\ quantityOf j (fst (addToCart cart item))
     = quantityOf j cart
       + (if String.eqb j (mi_id item) && addAccepted cart item then 1 else 0).
Proof.
  intros Hnd Hq.
  pose proof (quantityOf_nonneg (mi_id item) cart Hq) as Hnn.
  pose proof (quantityOf_found (mi_id item) cart Hnd) as Hfound.
  unfold addAccepted, addToCart.
  destruct (madeToOrder item) eqn:Hm; simpl.
  - destruct (findCartItem cart (mi_id item)) as [e|] eqn:Hfind; simpl.
    + split; [discriminate|].
      fold (rewriteLines (mi_id item) (fun c => quantity c + 1) cart).
      destruct (String.eqb j (mi_id item)) eqn:E; simpl.
      * apply String.eqb_eq in E. subst j.
        rewrite rewriteLines_same, Hfind by assumption. lia.
      * apply String.eqb_neq in E. rewrite rewriteLines_other by assumption. lia.
    + split; [discriminate|]. rewrite quantityOf_app. simpl.
      rewrite (String.eqb_sym (mi_id item) j).
      destruct (String.eqb j (mi_id item)); simpl; lia.
  - destruct (stock item <=? 0) eqn:G1; simpl.
    + apply Z.leb_le in G1.
      assert ((quantityOf (mi_id item) cart <? stock item) = false) as ->
          by (apply Z.ltb_ge; lia).
      rewrite andb_false_r. split; [reflexivity|lia].
    + apply Z.leb_gt in G1.
      destruct (findCartItem cart (mi_id item)) as [e|] eqn:Hfind; simpl.
      * rewrite Hfound.
        destruct (stock item <=? quantity e) eqn:G2; simpl.
        -- apply Z.leb_le in G2.
           assert ((quantity e <? stock item) = false) as -> by (apply Z.ltb_ge; lia).
           rewrite andb_false_r. split; [reflexivity|lia].
        -- apply Z.leb_gt in G2.
           assert ((quantity e <? stock item) = true) as -> by (apply Z.ltb_lt; lia).
           split; [discriminate|].
           fold (rewriteLines (mi_id item) (fun c => quantity c + 1) cart).
           destruct (String.eqb j (mi_id item)) eqn:E; simpl.
           ++ apply String.eqb_eq in E. subst j.
              rewrite rewriteLines_same, Hfind by assumption. lia.
           ++ apply String.eqb_neq in E.
              rewrite rewriteLines_other by assumption. lia.
      * rewrite Hfound.
        assert ((0 <? stock item) = true) as -> by (apply Z.ltb_lt; lia).
        split; [discriminate|]. rewrite quantityOf_app. simpl.
        rewrite (String.eqb_sym (mi_id item) j).
        destruct (String.eqb j (mi_id item)); simpl; lia.
Qed.

Lemma addToCart_one_more_unit_witness :
  NoDup (map ci_id sampleCart)
  /\ Forall (fun line => 1 <= quantity line) sampleCart
  /\ quantityOf "cookie" (fst (addToCart sampleCart cookie)) = 3
  /\ quantityOf "cake" (fst (addToCart sampleCart cookie)) = 1.
Proof.
  assert (NoDup (map ci_id sampleCart)) as Hnd.
  { simpl. repeat constructor; simpl; intuition discriminate. }
  assert (Forall (fun line => 1 <= quantity line) sampleCart) as Hq.
  { repeat constructor; simpl; lia. }
  split; [exact Hnd|]. split; [exact Hq|]. split.
  - destruct (addToCart_one_more_unit sampleCart cookie "cookie" Hnd Hq) as [_ H].
    rewrite H. reflexivity.
  - destruct (addToCart_one_more_unit sampleCart cookie "cake" Hnd Hq) as [_ H].
    rewrite H. reflexivity.
Defined.

(** X11.  For an item that already has a line in the cart, the Add button of
    the menu and the plus button of the line set the same cart: both add one
    unit, and both refuse at the stock limit. *)
Theorem add_button_matches_plus_button menuItems cart item line :
  NoDup (map ci_id cart) ->
  findMenuItem menuItems (mi_id item) = Some item ->
  findCartItem cart (mi_id item) = Some line ->
  1 <= quantity line ->
  exists notice,
    plusButton menuItems cart line = Returned (fst (addToCart cart item), notice).
Proof.
  intros Hnd Hmenu Hfind Hq.
  destruct (findCartItem_id _ _ _ Hfind) as [Hin Hid].
  assert (rewriteLines (mi_id item) (fun _ => quantity line + 1) cart
          = rewriteLines (mi_id item) (fun c => quantity c + 1) cart) as Hsame.
  { apply rewriteLines_agree. intros l Hl Hlid.
    rewrite (one_line_per_id cart line l Hnd Hin Hl); [reflexivity|congruence]. }
  unfold rewriteLines in Hsame.
  unfold plusButton, updateQuantity, addToCart.
  rewrite Hid, Hmenu, Hfind.
  assert ((quantity line + 1 <? 1) = false) as -> by (apply Z.ltb_ge; lia).
  destruct (madeToOrder item); simpl.
  - exists []. now rewrite Hsame.
  - destruct (stock item <=? 0) eqn:G1; simpl.
    + apply Z.leb_le in G1.
      assert ((stock item <? quantity line + 1) = true) as -> by (apply Z.ltb_lt; lia).
      eauto.
    + destruct (stock item <=? quantity line) eqn:G2; simpl.
      * apply Z.leb_le in G2.
        assert ((stock item <? quantity line + 1) = true) as -> by (apply Z.ltb_lt; lia).
        eauto.
      * apply Z.leb_gt in G2.
        assert ((stock item <? quantity line + 1) = false) as -> by (apply Z.ltb_ge; lia).
        exists []. now rewrite Hsame.
Qed.

Lemma add_button_matches_plus_button_witness :
  exists notice,
    plusButton sampleMenu sampleCart (setLineQuantity (newLine cookie) 2)
    = Returned (fst (addToCart sampleCart cookie), notice).
Proof.
  apply (add_button_matches_plus_button sampleMenu sampleCart cookie
           (setLineQuantity (newLine cookie) 2)).
  - simpl. repeat constructor; simpl; intuition discriminate.
  - reflexivity.
  - reflexivity.
  - simpl. lia.
Defined.

(** X12.  In a cart with one line per id, a plus click that goes through
    followed by a minus click on the same line gives back the cart as it
    was. *)
Theorem plus_then_minus menuItems cart line cart1 :
  NoDup (map ci_id cart) ->
  In line cart ->
  1 <= quantity line ->
  plusButton menuItems cart line = Returned (cart1, []) ->
  In (setLineQuantity line (quantity line + 1)) cart1
  /\ minusButton menuItems cart1 (setLineQuantity line (quantity line + 1))
     = Returned (cart, []).
Proof.
  intros Hnd Hin Hq Hplus.
  unfold plusButton, updateQuantity in Hplus.
  assert ((quantity line + 1 <? 1) = false) as E1 by (apply Z.ltb_ge; lia).
  rewrite E1 in Hplus.
  destruct (findMenuItem menuItems (ci_id line)) as [m|] eqn:Hmenu; [|discriminate].
  destruct (negb (madeToOrder m) && (stock m <? quantity line + 1)) eqn:G;
    [discriminate|].
  injection Hplus as <-.
  fold (rewriteLines (ci_id line) (fun _ => quantity line + 1) cart).
  split.
  - unfold rewriteLines. apply in_map_iff. exists line.
    now rewrite String.eqb_refl.
  - unfold minusButton, updateQuantity. simpl ci_id. simpl quantity.
    replace (quantity line + 1 - 1) with (quantity line) by lia.
    assert ((quantity line <? 1) = false) as -> by (apply Z.ltb_ge; lia).
    rewrite Hmenu.
    assert (negb (madeToOrder m) && (stock m <? quantity line) = false) as ->.
    { apply andb_false_iff in G. apply andb_false_iff.
      destruct G as [G|G]; [now left|right].
      apply Z.ltb_ge in G. apply Z.ltb_ge. lia. }
    f_equal. f_equal.
    fold (rewriteLines (ci_id line) (fun _ => quantity line)
            (rewriteLines (ci_id line) (fun _ => quantity line + 1) cart)).
    rewrite rewriteLines_twice.
    rewrite (rewriteLines_agree (ci_id line) (fun _ => quantity line) quantity).
    + apply rewriteLines_same_quantity.
    + intros l Hl Hid.
      now rewrite (one_line_per_id cart line l Hnd Hin Hl Hid).
Qed.

Lemma plus_then_minus_witness :
  plusButton sampleMenu sampleCart (setLineQuantity (newLine cookie) 2)
  = Returned ([setLineQuantity (newLine cookie) 3; newLine customCake], [])
  /\ minusButton sampleMenu [setLineQuantity (newLine cookie) 3; newLine customCake]
                 (setLineQuantity (setLineQuantity (newLine cookie) 2) (2 + 1))
     = Returned (sampleCart, []).
Proof.
  assert (plusButton sampleMenu sampleCart (setLineQuantity (newLine cookie) 2)
          = Returned ([setLineQuantity (newLine cookie) 3; newLine customCake], []))
    as Hplus by reflexivity.
  split; [exact Hplus|].
  apply (plus_then_minus sampleMenu sampleCart (setLineQuantity (newLine cookie) 2)
           [setLineQuantity (newLine cookie) 3; newLine customCake]).
  - simpl. repeat constructor; simpl; intuition discriminate.
  - simpl. auto.
  - simpl. lia.
  - exact Hplus.
Defined.

(** ** Carts the page can build *)

Lemma findMenuItem_of_item menuItems item :
  In item menuItems -> findMenuItem menuItems (mi_id item) <> None.
Proof.
  intros Hin Hnone. unfold findMenuItem in Hnone.
  pose proof (find_none _ _ Hnone _ Hin) as H. simpl in H.
  rewrite String.eqb_refl in H. discriminate.
Qed.

Lemma existsb_id_false cart i :
  existsb (fun item => String.eqb (ci_id item) i) cart = false ->
  ~ In i (map ci_id cart).
Proof.
  intros H Hin. apply in_map_iff in Hin. destruct Hin as [l [Hid Hl]].
  assert (existsb (fun item => String.eqb (ci_id item) i) cart = true); [|congruence].
  apply existsb_exists. exists l. split; [assumption|].
  rewrite Hid. apply String.eqb_refl.
Qed.

Lemma wellShaped_extend menuItems cart menuItem :
  findMenuItem menuItems (mi_id menuItem) <> None ->
  ~ In (mi_id menuItem) (map ci_id cart) ->
  wellShaped menuItems cart ->
  wellShaped menuItems (cart ++ [newLine menuItem]).
Proof.
  intros Hon Hnew (Hnd & Hq & Hm). repeat split.
  - rewrite map_app. simpl. apply NoDup_app;
      [assumption|repeat constructor; simpl; tauto|].
    intros x Hx [<-|[]]. auto.
  - apply Forall_app. split; [assumption|]. repeat constructor. simpl. lia.
  - rewrite map_app. apply Forall_app. split; [assumption|].
    repeat constructor. assumption.
Qed.

Lemma wellShaped_rewriteLines menuItems cart i f :
  (forall line, In line cart -> 1 <= f line) ->
  wellShaped menuItems cart ->
  wellShaped menuItems (rewriteLines i f cart).
Proof.
  intros Hf (Hnd & Hq & Hm). repeat split.
  - now rewrite rewriteLines_ids.
  - now apply rewriteLines_quantities.
  - now rewrite rewriteLines_ids.
Qed.

Lemma wellShaped_removeFromCart menuItems cart i :
  wellShaped menuItems cart -> wellShaped menuItems (removeFromCart cart i).
Proof.
  intros (Hnd & Hq & Hm). unfold removeFromCart.
  assert (forall x, In x (map ci_id (filter (fun item => negb (String.eqb (ci_id item) i)) cart))
                    -> In x (map ci_id cart)) as Hsub.
  { intros x Hx. apply in_map_iff in Hx. destruct Hx as [l [Hid Hl]].
    apply filter_In in Hl. apply in_map_iff. exists l. tauto. }
  repeat split.
  - clear Hq Hm Hsub. induction cart as [|c rest IH]; simpl; [constructor|].
    inversion Hnd as [|? ? Hnotin Hnd']; subst.
    destruct (negb (String.eqb (ci_id c) i)); simpl; auto.
    constructor; auto. intros Hin. apply Hnotin.
    apply in_map_iff in Hin. destruct Hin as [x [Hx Hf]].
    apply filter_In in Hf. apply in_map_iff. exists x. tauto.
  - apply Forall_forall. intros x Hx. apply filter_In in Hx.
    rewrite Forall_forall in Hq. apply Hq. tauto.
  - apply Forall_forall. intros x Hx. rewrite Forall_forall in Hm. auto.
Qed.

Lemma wellShaped_applyEvent menuItems cart e :
  eventOffered menuItems e ->
  wellShaped menuItems cart ->
  wellShaped menuItems (applyEvent menuItems cart e).
Proof.
  intros Hoff Hws. destruct e as [[item|i|i q]|itemParam]; simpl.
  - simpl in Hoff. unfold addToCart.
    destruct (negb (madeToOrder item) && (stock item <=? 0)); [assumption|].
    destruct (findCartItem cart (mi_id item)) as [e|] eqn:Hfind.
    + destruct (negb (madeToOrder item) && (stock item <=? quantity e));
        [assumption|]. simpl.
      apply (wellShaped_rewriteLines menuItems cart (mi_id item)
               (fun c => quantity c + 1)); [|assumption].
      destruct Hws as (_ & Hq & _). rewrite Forall_forall in Hq.
      intros line Hl. specialize (Hq line Hl). lia.
    + rewrite andb_false_r. simpl. apply wellShaped_extend; [|  |assumption].
      * now apply findMenuItem_of_item.
      * now apply findCartItem_none.
  - now apply wellShaped_removeFromCart.
  - unfold updateQuantity.
    destruct (q <? 1) eqn:Hq1; [now apply wellShaped_removeFromCart|].
    apply Z.ltb_ge in Hq1.
    destruct (findMenuItem menuItems i) as [m|]; [|assumption].
    destruct (negb (madeToOrder m) && (stock m <? q)); [assumption|]. simpl.
    apply (wellShaped_rewriteLines menuItems cart i (fun _ => q)); auto.
  - unfold urlItemEffect. destruct itemParam as [itemId|]; [|assumption].
    destruct (String.eqb itemId EmptyString); [assumption|].
    destruct (findMenuItem menuItems itemId) as [m|] eqn:Hfind; [|assumption].
    destruct (existsb (fun item => String.eqb (ci_id item) itemId) cart) eqn:Hex;
      simpl; [assumption|].
    destruct (findMenuItem_id _ _ _ Hfind) as [_ Hid].
    apply wellShaped_extend; [| |assumption].
    + rewrite Hid, Hfind. discriminate.
    + rewrite Hid. now apply existsb_id_false.
Qed.

Lemma wellShaped_unmatched menuItems cart :
  wellShaped menuItems cart -> unmatchedItems cart menuItems = [].
Proof.
  intros (_ & _ & Hm). unfold unmatchedItems.
  induction cart as [|c rest IH]; simpl in *; [reflexivity|].
  inversion Hm as [|? ? Hc Hrest]; subst.
  destruct (findMenuItem menuItems (ci_id c)); [|contradiction]. simpl. auto.
Qed.

Lemma partition_lengths cart menuItems :
  (List.length (inStockItems (formatOrderDetails cart menuItems))
   + List.length (madeToOrderItems (formatOrderDetails cart menuItems))
   + List.length (unmatchedItems cart menuItems)
   = List.length cart)%nat.
Proof.
  unfold unmatchedItems. simpl.
  induction cart as [|c rest IH]; simpl; [reflexivity|].
  destruct (findMenuItem menuItems (ci_id c)) as [m|]; simpl.
  - destruct (madeToOrder m); simpl; lia.
  - lia.
Qed.

Lemma events_keep_wellShaped menuItems events cart :
  Forall (eventOffered menuItems) events ->
  wellShaped menuItems cart ->
  wellShaped menuItems (fold_left (applyEvent menuItems) events cart).
Proof.
  intros Hoff. revert cart.
  induction Hoff as [|e rest He _ IH]; simpl; intros c Hc; [assumption|].
  apply IH. now apply wellShaped_applyEvent.
Qed.

(** X13.  Whatever sequence of button clicks and URL effects builds the
    cart, starting from the empty one, the cart has one line per id, every
    quantity is at least 1 and every line is on the menu.  Hence
    [updateQuantity] never raises on a line of the cart, and the in-stock and
    made-to-order lists together hold every line of the cart. *)
Theorem reachable_carts_are_well_shaped menuItems events :
  Forall (eventOffered menuItems) events ->
  let cart := fold_left (applyEvent menuItems) events [] in
  let details := formatOrderDetails cart menuItems in
  NoDup (map ci_id cart)
  /\ Forall (fun line => 1 <= quantity line) cart
  /\ unmatchedItems cart menuItems = []
  /\ (forall line q, In line cart ->
                     updateQuantity menuItems cart (ci_id line) q <> TypeError)
  /\ (List.length (inStockItems details) + List.length (madeToOrderItems details)
      = List.length cart)%nat.
Proof.
  intros Hoff cart details.
  assert (wellShaped menuItems cart) as Hws.
  { unfold cart. apply events_keep_wellShaped; [assumption|].
    repeat split; constructor. }
  pose proof (wellShaped_unmatched _ _ Hws) as Hun.
  destruct Hws as (Hnd & Hq & Hm).
  repeat (split; [assumption|]).
  split.
  - intros line q Hin. unfold updateQuantity.
    destruct (q <? 1); [discriminate|].
    rewrite Forall_forall in Hm.
    destruct (findMenuItem menuItems (ci_id line)) as [m|] eqn:E.
    + destruct (negb (madeToOrder m) && (stock m <? q)); discriminate.
    + exfalso. apply (Hm (ci_id line)); [now apply in_map|assumption].
  - pose proof (partition_lengths cart menuItems) as Hlen.
    rewrite Hun in Hlen. simpl in Hlen. unfold details. simpl. lia.
Qed.

Lemma reachable_carts_are_well_shaped_witness :
  Forall (eventOffered sampleMenu)
         [UrlItem (Some "brownie"%string); Click (Add cookie);
          Click (SetQuantity "cookie" 2); Click (Remove "brownie")]
  /\ unmatchedItems
       (fold_left (applyEvent sampleMenu)
                  [UrlItem (Some "brownie"%string); Click (Add cookie);
                   Click (SetQuantity "cookie" 2); Click (Remove "brownie")] [])
       sampleMenu = [].
Proof.
  assert (Forall (eventOffered sampleMenu)
                 [UrlItem (Some "brownie"%string); Click (Add cookie);
                  Click (SetQuantity "cookie" 2); Click (Remove "brownie")]) as Hoff.
  { repeat constructor. }
  split; [exact Hoff|].
  apply (reachable_carts_are_well_shaped sampleMenu _ Hoff).
Defined.

(** ** The URL effect *)

(** X14.  Running the URL effect again changes nothing, so its re-runs on
    every cart change are harmless; and it only ever appends: the lines
    already in the cart stay as they are, and at most one line is added. *)
Theorem urlItemEffect_idempotent menuItems itemParam cart :
  urlItemEffect menuItems itemParam (urlItemEffect menuItems itemParam cart)
  = urlItemEffect menuItems itemParam cart
  /\ exists added,
       urlItemEffect menuItems itemParam cart = cart ++ added
       /\ (List.length added <= 1)%nat.
Proof.
  unfold urlItemEffect. destruct itemParam as [itemId|].
  2: { split; [reflexivity|]. exists []. rewrite app_nil_r. simpl. auto. }
  destruct (String.eqb itemId EmptyString) eqn:Hempty.
  { split; [reflexivity|]. exists []. rewrite app_nil_r. simpl. auto. }
  destruct (findMenuItem menuItems itemId) as [m|] eqn:Hfind.
  2: { split; [reflexivity|]. exists []. rewrite app_nil_r. simpl. auto. }
  destruct (existsb (fun item => String.eqb (ci_id item) itemId) cart) eqn:Hex; simpl.
  - rewrite Hex. simpl. split; [reflexivity|].
    exists []. rewrite app_nil_r. simpl. auto.
  - split.
    + rewrite existsb_app. simpl.
      destruct (findMenuItem_id _ _ _ Hfind) as [_ Hid].
      rewrite Hid, String.eqb_refl, orb_true_r. reflexivity.
    + exists [newLine m]. simpl. auto.
Qed.

(** X15.  While the URL names an item of the menu, removing that item from
    the cart does not last: the effect, which runs again when the cart
    changes, puts it back as a fresh line of quantity 1 at the end of the
    cart. *)
Theorem urlItemEffect_undoes_removal menuItems cart itemId menuItem :
  itemId <> EmptyString ->
  findMenuItem menuItems itemId = Some menuItem ->
  urlItemEffect menuItems (Some itemId) (removeFromCart cart itemId)
  = removeFromCart cart itemId ++ [newLine menuItem]
  /\ quantityOf itemId
       (urlItemEffect menuItems (Some itemId) (removeFromCart cart itemId)) = 1.
Proof.
  intros Hne Hfind.
  destruct (findMenuItem_id _ _ _ Hfind) as [_ Hid].
  assert (urlItemEffect menuItems (Some itemId) (removeFromCart cart itemId)
          = removeFromCart cart itemId ++ [newLine menuItem]) as Heq.
  { unfold urlItemEffect.
    apply String.eqb_neq in Hne. rewrite Hne, Hfind.
    assert (existsb (fun item => String.eqb (ci_id item) itemId)
                    (removeFromCart cart itemId) = false) as ->; [|reflexivity].
    unfold removeFromCart.
    induction cart as [|c rest IH]; simpl; [reflexivity|].
    destruct (String.eqb (ci_id c) itemId) eqn:E; simpl; [assumption|].
    now rewrite E. }
  split; [assumption|].
  rewrite Heq, quantityOf_app, removeFromCart_quantityOf, String.eqb_refl.
  simpl. rewrite Hid, String.eqb_refl. reflexivity.
Qed.

Lemma urlItemEffect_undoes_removal_witness :
  urlItemEffect sampleMenu (Some "cookie"%string) (removeFromCart sampleCart "cookie")
  = [newLine customCake; newLine cookie].
Proof.
  destruct (urlItemEffect_undoes_removal sampleMenu sampleCart "cookie" cookie)
    as [H _].
  - discriminate.
  - reflexivity.
  - rewrite H. reflexivity.
Defined.

(** ** More on submission *)

(** X16.  When [onSubmit] returns, [isSubmitting] is what it was before the
    call, so the page is never left locked; the orders recorded earlier are
    all still there in the same order, at most one has been appended, and
    when one has, the cart is empty and the form is back to its defaults. *)
Theorem onSubmit_restores_flag env menuItems st data :
  let result := onSubmit env menuItems st data in
  isSubmitting (after result) = isSubmitting st
  /\ exists added,
       orders (after result) = orders st ++ added
       /\ (List.length added <= 1)%nat
       /\ (added <> [] ->
           cart (after result) = [] /\ formValues (after result) = defaultValues).
Proof.
  intros result. subst result. unfold onSubmit.
  destruct (isSubmitting st) eqn:Hs; simpl.
  { rewrite Hs. split; [reflexivity|]. exists []. rewrite app_nil_r.
    repeat split; simpl; auto; contradiction. }
  destruct (List.length (cart st) =? 0)%nat; simpl.
  { rewrite Hs. split; [reflexivity|]. exists []. rewrite app_nil_r.
    repeat split; simpl; auto; contradiction. }
  destruct (customerSendOk env), (bakerySendOk env), (addOrderOk env); simpl;
    (split; [reflexivity|]);
    try (exists []; rewrite app_nil_r; repeat split; simpl; auto; contradiction).
  eexists. split; [reflexivity|]. simpl. auto.
Qed.

(** X17.  Once a submission has gone through, submitting again at once makes
    no call and changes nothing, whatever the form holds and however the
    collaborators would answer: the cart is empty by then. *)
Theorem no_second_order env menuItems st data env' data' :
  isSubmitting st = false ->
  cart st <> [] ->
  customerSendOk env && bakerySendOk env && addOrderOk env = true ->
  let first := onSubmit env menuItems st data in
  onSubmit env' menuItems (after first) data'
  = {| after := after first; calls := []; toasts := [] |}.
Proof.
  intros Hidle Hcart Hok first.
  assert (cart (after first) = []) as Hempty.
  { unfold first, onSubmit. rewrite Hidle. simpl orb.
    destruct (cart st) as [|l more]; [contradiction|]. simpl Nat.eqb. cbv iota.
    destruct (customerSendOk env), (bakerySendOk env), (addOrderOk env);
      try discriminate. reflexivity. }
  unfold onSubmit at 1. rewrite Hempty. simpl. now rewrite orb_true_r.
Qed.

Lemma no_second_order_witness :
  isSubmitting untouchedFormState = false
  /\ cart untouchedFormState <> []
  /\ calls (onSubmit allFulfil sampleMenu
                     (after (onSubmit allFulfil sampleMenu untouchedFormState filledForm))
                     filledForm) = [].
Proof.
  assert (isSubmitting untouchedFormState = false) as Hidle by reflexivity.
  assert (cart untouchedFormState <> []) as Hcart by (simpl; discriminate).
  split; [exact Hidle|]. split; [exact Hcart|].
  rewrite (no_second_order allFulfil sampleMenu untouchedFormState filledForm
             allFulfil filledForm Hidle Hcart eq_refl).
  reflexivity.
Defined.

(** X19.  The resolver built by [createValidationSchema] accepts a form only
    when the cart is not empty, the phone matches the pattern, the email
    passes the email check and all four pickup fields are set: the dates and
    times of both sub-orders are required even when the cart holds items of
    one kind only. *)
Theorem resolver_requires_all_pickup_fields isEmail cart menuItems data :
  createValidationSchema isEmail cart menuItems data = true ->
  cart <> []
  /\ isEmail (email data) = true
  /\ phonePattern (phone data) = true
  /\ inStockPickupDate data <> None
  /\ inStockPickupTime data <> None
  /\ madeToOrderPickupDate data <> None
  /\ madeToOrderPickupTime data <> None.
Proof.
  unfold createValidationSchema, orderFormSchema, pickupDetailsRefinement.
  rewrite !andb_true_iff.
  intros [[[[[[[_ [He _]] [_ Hp]] H1] H2] H3] H4] Href].
  repeat split; try assumption.
  - intros ->. simpl in Href. discriminate.
  - intros E. rewrite E in H1. discriminate.
  - intros E. rewrite E in H2. discriminate.
  - intros E. rewrite E in H3. discriminate.
  - intros E. rewrite E in H4. discriminate.
Qed.

Lemma resolver_requires_all_pickup_fields_witness :
  createValidationSchema (fun _ => true) sampleCart sampleMenu filledForm = true
  /\ madeToOrderPickupDate filledForm <> None.
Proof.
  assert (createValidationSchema (fun _ => true) sampleCart sampleMenu filledForm = true)
    as H by reflexivity.
  split; [exact H|].
  apply (resolver_requires_all_pickup_fields (fun _ => true) sampleCart sampleMenu
           filledForm H).
Defined.

(** ** The menu column *)

Lemma filteredMenuItems_In menuItems selectedCategory selectedDietary item :
  In item (filteredMenuItems menuItems selectedCategory selectedDietary)
  <-> (In item menuItems
       /\ (selectedCategory = "all"%string \/ category item = selectedCategory)
       /\ forall restriction, In restriction selectedDietary ->
                              dietaryInfo item restriction = true).
Proof.
  unfold filteredMenuItems. rewrite filter_In, andb_true_iff, !orb_true_iff.
  rewrite !String.eqb_eq, forallb_forall.
  split; intros (Hin & Hcat & Hdiet); (split; [assumption|split; [assumption|]]).
  - destruct Hdiet as [Hlen|Hall]; [|assumption].
    destruct selectedDietary; [intros ? []|discriminate].
  - now right.
Qed.

(** X20.  With category [all] and no dietary preference the menu column
    shows the whole menu, in menu order; every shown item is on the menu and
    has all the selected dietary flags; and ticking more preferences never
    brings an item back. *)
Theorem dietary_filter_narrows menuItems selectedCategory :
  filteredMenuItems menuItems "all" [] = menuItems
  /\ (forall selectedDietary item,
         In item (filteredMenuItems menuItems selectedCategory selectedDietary) ->
         In item menuItems
         /\ forallb (dietaryInfo item) selectedDietary = true)
  /\ (forall fewer more item,
         incl fewer more ->
         In item (filteredMenuItems menuItems selectedCategory more) ->
         In item (filteredMenuItems menuItems selectedCategory fewer)).
Proof.
  split; [|split].
  - unfold filteredMenuItems. simpl.
    induction menuItems as [|m rest IH]; simpl; [reflexivity|]. now rewrite IH.
  - intros sel item H. apply filteredMenuItems_In in H.
    destruct H as (Hin & _ & Hd). split; [assumption|].
    apply forallb_forall. assumption.
  - intros fewer more item Hincl H. apply filteredMenuItems_In in H.
    apply filteredMenuItems_In. destruct H as (Hin & Hcat & Hd).
    repeat split; auto.
Qed.

(** X21.  An item is drawn in the menu column exactly when it passes the
    filters and its category is one of the listed [categories]; an item whose
    category is not listed is never drawn.  Every section drawn has at least
    one item, and holds only items of its own category. *)
Theorem categorySections_cover categories menuItems selectedCategory selectedDietary :
  let sections :=
    categorySections categories menuItems selectedCategory selectedDietary in
  (forall item,
      (exists c items, In (c, items) sections /\ In item items)
      <-> (In item (filteredMenuItems menuItems selectedCategory selectedDietary)
           /\ In (category item) categories))
  /\ (forall c items,
         In (c, items) sections ->
         items <> [] /\ In c categories
         /\ forall item, In item items -> category item = c).
Proof.
  intros sections. subst sections. unfold categorySections.
  assert (forall c items,
             In (c, items)
                (flat_map
                   (fun c0 =>
                      let categoryItems :=
                        filter (fun item => String.eqb (category item) c0)
                               (filteredMenuItems menuItems selectedCategory selectedDietary) in
                      if (List.length categoryItems =? 0)%nat then []
                      else [(c0, categoryItems)])
                   (filter (fun c0 => String.eqb selectedCategory "all"
                                      || String.eqb c0 selectedCategory) categories))
             <-> (In c categories
                  /\ (selectedCategory = "all"%string \/ c = selectedCategory)
                  /\ items = filter (fun item => String.eqb (category item) c)
                                    (filteredMenuItems menuItems selectedCategory selectedDietary)
                  /\ items <> [])) as Hsec.
  { intros c items. rewrite in_flat_map. split.
    - intros [c0 [Hc0 Hin]]. apply filter_In in Hc0. destruct Hc0 as [Hcat Hsel].
      apply orb_true_iff in Hsel. rewrite !String.eqb_eq in Hsel.
      cbv zeta in Hin.
      destruct (filter (fun item => String.eqb (category item) c0)
                       (filteredMenuItems menuItems selectedCategory selectedDietary))
        as [|x xs] eqn:E; simpl in Hin; [contradiction|].
      destruct Hin as [Hin|[]]. injection Hin as <- <-.
      repeat split; try assumption; try (now symmetry); discriminate.
    - intros (Hcat & Hsel & -> & Hne). exists c. split.
      + apply filter_In. split; [assumption|].
        apply orb_true_iff. now rewrite !String.eqb_eq.
      + cbv zeta.
        destruct (filter (fun item => String.eqb (category item) c)
                         (filteredMenuItems menuItems selectedCategory selectedDietary))
          as [|x xs]; [contradiction|]. simpl. now left. }
  split.
  - intros item. split.
    + intros (c & items & Hin & Hitem). apply Hsec in Hin.
      destruct Hin as (Hcat & _ & -> & _). apply filter_In in Hitem.
      destruct Hitem as [Hf Hc]. apply String.eqb_eq in Hc. subst c. auto.
    + intros [Hf Hcat].
      exists (category item),
        (filter (fun x => String.eqb (category x) (category item))
                (filteredMenuItems menuItems selectedCategory selectedDietary)).
      assert (In item
                 (filter (fun x => String.eqb (category x) (category item))
                         (filteredMenuItems menuItems selectedCategory selectedDietary)))
        as Hitem.
      { apply filter_In. split; [assumption|apply String.eqb_refl]. }
      split; [|assumption]. apply Hsec.
      split; [assumption|]. split.
      * apply filteredMenuItems_In in Hf. tauto.
      * split; [reflexivity|]. intros E. rewrite E in Hitem. contradiction.
  - intros c items Hin. apply Hsec in Hin.
    destruct Hin as (Hcat & _ & -> & Hne). repeat split; try assumption.
    intros item Hitem. apply filter_In in Hitem.
    destruct Hitem as [_ Hc]. now apply String.eqb_eq.
Qed.

(** ** Where the URL effect keeps the stock rule *)

(** X22.  The URL effect keeps a well-formed cart well formed, stock rule
    included, whenever the item the URL names is made to order or has at
    least one unit in stock (or is not on the menu at all). *)
Theorem urlItemEffect_invariant_in_stock menuItems itemParam cart :
  NoDup (map mi_id menuItems) ->
  cartInvariant menuItems cart ->
  (forall itemId menuItem,
      itemParam = Some itemId ->
      findMenuItem menuItems itemId = Some menuItem ->
      madeToOrder menuItem = true \/ 1 <= stock menuItem) ->
  cartInvariant menuItems (urlItemEffect menuItems itemParam cart).
Proof.
  intros Hmenu Hinv Hstock. unfold urlItemEffect.
  destruct itemParam as [itemId|]; [|assumption].
  destruct (String.eqb itemId EmptyString); [assumption|].
  destruct (findMenuItem menuItems itemId) as [m|] eqn:Hfind; [|assumption].
  destruct (existsb (fun item => String.eqb (ci_id item) itemId) cart) eqn:Hex;
    simpl; [assumption|].
  destruct (findMenuItem_id _ _ _ Hfind) as [Hin Hid].
  pose proof (existsb_id_false _ _ Hex) as Habs.
  destruct Hinv as (Hnd & Hq & Hs). repeat split.
  - rewrite map_app. simpl. apply NoDup_app;
      [assumption|repeat constructor; simpl; tauto|].
    intros x Hx [<-|[]]. rewrite Hid in Hx. auto.
  - apply Forall_app. split; [assumption|]. repeat constructor. simpl. lia.
  - apply stockRespected_iff. intros mi Hmi Hm.
    rewrite stockRespected_iff in Hs. specialize (Hs mi Hmi Hm).
    rewrite quantityOf_app. simpl.
    destruct (String.eqb (mi_id m) (mi_id mi)) eqn:E; [|lia].
    apply String.eqb_eq in E.
    assert (mi = m) as ->.
    { pose proof (findMenuItem_unique _ _ Hmenu Hmi) as F1.
      pose proof (findMenuItem_unique _ _ Hmenu Hin) as F2.
      rewrite <- E in F1. congruence. }
    rewrite Hid, (quantityOf_absent _ _ Habs).
    destruct (Hstock itemId m eq_refl Hfind) as [Hmto|Hst]; [congruence|lia].
Qed.

Lemma urlItemEffect_invariant_in_stock_witness :
  cartInvariant sampleMenu [newLine customCake]
  /\ cartInvariant sampleMenu
       (urlItemEffect sampleMenu (Some "cookie"%string) [newLine customCake]).
Proof.
  assert (NoDup (map mi_id sampleMenu)) as Hmenu.
  { simpl. repeat constructor; simpl; intuition discriminate. }
  assert (cartInvariant sampleMenu [newLine customCake]) as Hinv.
  { split; [|split].
    - simpl. repeat constructor. simpl. tauto.
    - repeat constructor. simpl. lia.
    - reflexivity. }
  split; [exact Hinv|].
  apply (urlItemEffect_invariant_in_stock sampleMenu (Some "cookie"%string)
           [newLine customCake] Hmenu Hinv).
  intros itemId menuItem Hparam Hfind.
  injection Hparam as <-. simpl in Hfind. injection Hfind as <-.
  right. simpl. lia.
Defined.

(** ** What the disabled buttons stand for *)

(** X23.  The submit button is disabled exactly when a click on it would
    make no call at all; and an Add button that is disabled belongs to an
    item that [addToCart] would refuse as out of stock. *)
Theorem disabled_buttons_are_inert env menuItems st :
  (submitButtonDisabled st = true
   <-> calls (formSubmitHandler env menuItems st) = [])
  /\ (forall item cart',
         addButtonDisabled item = true ->
         addToCart cart' item = (cart', [OutOfStock (mi_name item)])).
Proof.
  split.
  - unfold submitButtonDisabled, formSubmitHandler, onSubmit.
    rewrite orb_comm.
    destruct (isSubmitting st || (List.length (cart st) =? 0)%nat); simpl.
    + tauto.
    + split; [discriminate|].
      destruct (customerSendOk env && bakerySendOk env);
        [destruct (addOrderOk env)|]; simpl; discriminate.
  - intros item cart' H. unfold addButtonDisabled in H. unfold addToCart.
    apply andb_true_iff in H. destruct H as [Hm Hs].
    apply Z.eqb_eq in Hs. rewrite Hm, Hs. reflexivity.
Qed.

(** ** Lines as snapshots of the menu *)

Lemma snapshot_rewriteLines menuItems i f cart :
  Forall (snapshotOfMenu menuItems) cart ->
  Forall (snapshotOfMenu menuItems) (rewriteLines i f cart).
Proof.
  intros H. unfold rewriteLines. apply Forall_forall. intros x Hx.
  apply in_map_iff in Hx. destruct Hx as [l [<- Hl]].
  rewrite Forall_forall in H. specialize (H l Hl).
  destruct (String.eqb (ci_id l) i); assumption.
Qed.

Lemma snapshot_removeFromCart menuItems i cart :
  Forall (snapshotOfMenu menuItems) cart ->
  Forall (snapshotOfMenu menuItems) (removeFromCart cart i).
Proof.
  intros H. unfold removeFromCart. apply Forall_forall. intros x Hx.
  apply filter_In in Hx. rewrite Forall_forall in H. apply H. tauto.
Qed.

Lemma snapshot_newLine menuItems menuItem :
  findMenuItem menuItems (mi_id menuItem) = Some menuItem ->
  snapshotOfMenu menuItems (newLine menuItem).
Proof. intros H. exists menuItem. simpl. auto. Qed.

(** X24.  On a menu with distinct ids, every line of a cart built by button
    clicks and URL effects carries the name and the price of the menu item
    of its id: the handlers change quantities only. *)
Theorem lines_are_menu_snapshots menuItems events :
  NoDup (map mi_id menuItems) ->
  Forall (eventOffered menuItems) events ->
  Forall (snapshotOfMenu menuItems)
         (fold_left (applyEvent menuItems) events []).
Proof.
  intros Hmenu Hoff.
  assert (Forall (snapshotOfMenu menuItems) []) as Hinit by constructor.
  revert Hinit. generalize (@nil CartItem).
  induction Hoff as [|e rest He _ IH]; simpl; intros cart Hc; [assumption|].
  apply IH. clear IH. destruct e as [[item|i|i q]|itemParam]; simpl.
  - simpl in He. unfold addToCart.
    destruct (negb (madeToOrder item) && (stock item <=? 0)); [assumption|].
    destruct (findCartItem cart (mi_id item)) as [e|].
    + destruct (negb (madeToOrder item) && (stock item <=? quantity e));
        [assumption|]. simpl.
      apply (snapshot_rewriteLines menuItems (mi_id item) (fun c => quantity c + 1)).
      assumption.
    + rewrite andb_false_r. simpl. apply Forall_app. split; [assumption|].
      repeat constructor. apply snapshot_newLine.
      now apply findMenuItem_unique.
  - now apply snapshot_removeFromCart.
  - unfold updateQuantity.
    destruct (q <? 1); [now apply snapshot_removeFromCart|].
    destruct (findMenuItem menuItems i) as [m|]; [|assumption].
    destruct (negb (madeToOrder m) && (stock m <? q)); [assumption|]. simpl.
    now apply (snapshot_rewriteLines menuItems i (fun _ => q)).
  - unfold urlItemEffect. destruct itemParam as [itemId|]; [|assumption].
    destruct (String.eqb itemId EmptyString); [assumption|].
    destruct (findMenuItem menuItems itemId) as [m|] eqn:Hfind; [|assumption].
    destruct (existsb (fun item => String.eqb (ci_id item) itemId) cart);
      simpl; [assumption|].
    apply Forall_app. split; [assumption|]. repeat constructor.
    apply snapshot_newLine.
    destruct (findMenuItem_id _ _ _ Hfind) as [_ Hid]. now rewrite Hid.
Qed.

Lemma lines_are_menu_snapshots_witness :
  Forall (snapshotOfMenu sampleMenu)
         (fold_left (applyEvent sampleMenu)
                    [UrlItem (Some "cake"%string); Click (Add cookie);
                     Click (SetQuantity "cookie" 2)] []).
Proof.
  apply (lines_are_menu_snapshots sampleMenu).
  - simpl. repeat constructor; simpl; intuition discriminate.
  - repeat constructor.
Defined.
